(** * Incremental change detection (agent/PHASE 1/1_read_sources.py)

    A shallow embedding of [IncrementalChangeDetector] and of the [main]
    entry point of [1_read_sources.py], with the properties of the change
    reconciler stated over it.

    Python values are modelled as follows.
    - [str] is [string]; every character is a code point below 256, so
      slicing and [len] count characters while [str.encode] (UTF-8) may
      produce two bytes for one character.
    - [dict] with string keys and string values is [gmap string string].
    - an exception is a value of [exception]; a call that may raise returns
      a [result].
    - the file system and the git repositories are read through the queries
      of an environment record ([Env]); the environment is the snapshot the
      run observes. *)

From Stdlib Require Import ZArith Ascii String List Lia Bool.
From stdpp Require Import base option list gmap strings fin_maps.

Import ListNotations.
Local Open Scope string_scope.
Local Open Scope list_scope.

(** ** Python string operations used by the detector *)

Module PyStr.
Local Open Scope Z_scope.

(** [s[:n]] *)
Fixpoint slice_to (n : nat) (s : string) : string :=
  match n, s with
  | O, _ => EmptyString
  | S _, EmptyString => EmptyString
  | S n', String c s' => String c (slice_to n' s')
  end.

(** [len(s)] *)
Definition len (s : string) : nat := String.length s.

(** [s.replace(c, "")] for a one-character [c] *)
Fixpoint remove_char (c : ascii) (s : string) : string :=
  match s with
  | EmptyString => EmptyString
  | String d s' =>
      if Ascii.eqb c d then remove_char c s' else String d (remove_char c s')
  end.

(** [s.startswith(p)] *)
Fixpoint startswith (s p : string) : bool :=
  match p, s with
  | EmptyString, _ => true
  | String _ _, EmptyString => false
  | String a p', String b s' => Ascii.eqb a b && startswith s' p'
  end.

Fixpoint rev_acc (s acc : string) : string :=
  match s with
  | EmptyString => acc
  | String c s' => rev_acc s' (String c acc)
  end.

Definition reverse (s : string) : string := rev_acc s EmptyString.

(** [s.endswith(p)] *)
Definition endswith (s p : string) : bool :=
  startswith (reverse s) (reverse p).

(** [c.isspace()] on code points below 256 *)
Definition isspace (c : ascii) : bool :=
  let n := nat_of_ascii c in
  ((9 <=? n) && (n <=? 13) || (28 <=? n) && (n <=? 32)
   || (n =? 133) || (n =? 160))%nat.

Fixpoint lstrip (s : string) : string :=
  match s with
  | EmptyString => EmptyString
  | String c s' => if isspace c then lstrip s' else s
  end.

(** [s.strip()] *)
Definition strip (s : string) : string :=
  reverse (lstrip (reverse (lstrip s))).

(** [PurePath.name] of a relative POSIX path: the last component. *)
Fixpoint name_acc (s cur : string) : string :=
  match s with
  | EmptyString => reverse cur
  | String c s' =>
      if Ascii.eqb c "/" then
        match s' with
        | EmptyString => reverse cur
        | _ => name_acc s' EmptyString
        end
      else name_acc s' (String c cur)
  end.

Definition path_name (p : string) : string := name_acc p EmptyString.

(** [s.encode()]: UTF-8 of code points below 256. *)
Fixpoint encode (s : string) : list Z :=
  match s with
  | EmptyString => []
  | String c s' =>
      let n := Z.of_nat (nat_of_ascii c) in
      if n <? 128 then n :: encode s'
      else Z.lor 192 (Z.shiftr n 6) :: Z.lor 128 (Z.land n 63) :: encode s'
  end.

(** [sub in s] *)
Fixpoint contains (s sub : string) : bool :=
  startswith s sub
  || match s with
     | EmptyString => false
     | String _ s' => contains s' sub
     end.

End PyStr.

(** ** [hashlib.md5(b).hexdigest()] *)

Module MD5.
Local Open Scope Z_scope.

Definition mask32 (x : Z) : Z := Z.land x 4294967295.

Definition rotl (x : Z) (n : Z) : Z :=
  mask32 (Z.lor (Z.shiftl x n) (Z.shiftr x (32 - n))).

Definition not32 (x : Z) : Z := Z.lxor x 4294967295.

Definition K : list Z :=
  [3614090360; 3905402710; 606105819; 3250441966; 4118548399; 1200080426;
   2821735955; 4249261313; 1770035416; 2336552879; 4294925233; 2304563134;
   1804603682; 4254626195; 2792965006; 1236535329; 4129170786; 3225465664;
   643717713; 3921069994; 3593408605; 38016083; 3634488961; 3889429448;
   568446438; 3275163606; 4107603335; 1163531501; 2850285829; 4243563512;
   1735328473; 2368359562; 4294588738; 2272392833; 1839030562; 4259657740;
   2763975236; 1272893353; 4139469664; 3200236656; 681279174; 3936430074;
   3572445317; 76029189; 3654602809; 3873151461; 530742520; 3299628645;
   4096336452; 1126891415; 2878612391; 4237533241; 1700485571; 2399980690;
   4293915773; 2240044497; 1873313359; 4264355552; 2734768916; 1309151649;
   4149444226; 3174756917; 718787259; 3951481745].

Definition shifts : list Z :=
  [7; 12; 17; 22; 7; 12; 17; 22; 7; 12; 17; 22; 7; 12; 17; 22;
   5; 9; 14; 20; 5; 9; 14; 20; 5; 9; 14; 20; 5; 9; 14; 20;
   4; 11; 16; 23; 4; 11; 16; 23; 4; 11; 16; 23; 4; 11; 16; 23;
   6; 10; 15; 21; 6; 10; 15; 21; 6; 10; 15; 21; 6; 10; 15; 21].

Definition word_state : Type := (Z * Z * Z * Z)%type.

Definition init_state : word_state :=
  (1732584193, 4023233417, 2562383102, 271733878).

Definition round (M : list Z) (st : word_state) (i : nat) : word_state :=
  let '(A, B, C, D) := st in
  let '(F, g) :=
    if (i <? 16)%nat then
      (Z.lor (Z.land B C) (Z.land (not32 B) D), i)
    else if (i <? 32)%nat then
      (Z.lor (Z.land D B) (Z.land (not32 D) C), ((5 * i + 1) mod 16)%nat)
    else if (i <? 48)%nat then
      (Z.lxor (Z.lxor B C) D, ((3 * i + 5) mod 16)%nat)
    else
      (Z.lxor C (Z.lor B (not32 D)), ((7 * i) mod 16)%nat) in
  let F' := mask32 (F + A + nth i K 0 + nth g M 0) in
  (D, mask32 (B + rotl F' (nth i shifts 0)), B, C).

Fixpoint words (bs : list Z) : list Z :=
  match bs with
  | b0 :: b1 :: b2 :: b3 :: rest =>
      (b0 + 256 * b1 + 65536 * b2 + 16777216 * b3) :: words rest
  | _ => []
  end.

Definition process_chunk (st : word_state) (chunk : list Z) : word_state :=
  let M := words chunk in
  let '(A, B, C, D) := fold_left (round M) (seq 0 64) st in
  let '(a0, b0, c0, d0) := st in
  (mask32 (a0 + A), mask32 (b0 + B), mask32 (c0 + C), mask32 (d0 + D)).

Definition le_bytes (n : nat) (x : Z) : list Z :=
  map (fun k => Z.land (Z.shiftr x (8 * Z.of_nat k)) 255) (seq 0 n).

Definition pad (msg : list Z) : list Z :=
  let l := Z.of_nat (length msg) in
  let zeros := Z.to_nat ((55 - l) mod 64) in
  msg ++ [128] ++ repeat 0 zeros ++ le_bytes 8 (8 * l).

Fixpoint chunks (n : nat) (bs : list Z) : word_state -> word_state :=
  match n with
  | O => fun st => st
  | S n' => fun st =>
      match bs with
      | [] => st
      | _ => chunks n' (skipn 64 bs) (process_chunk st (firstn 64 bs))
      end
  end.

Definition digest (msg : list Z) : list Z :=
  let p := pad msg in
  let '(a, b, c, d) := chunks (length p) p init_state in
  le_bytes 4 a ++ le_bytes 4 b ++ le_bytes 4 c ++ le_bytes 4 d.

Definition hex_digit (n : Z) : ascii :=
  match String.get (Z.to_nat n) "0123456789abcdef" with
  | Some c => c
  | None => "0"%char
  end.

Fixpoint hex (bs : list Z) : string :=
  match bs with
  | [] => EmptyString
  | b :: rest =>
      String (hex_digit (Z.shiftr b 4)) (String (hex_digit (Z.land b 15)) (hex rest))
  end.

Definition hexdigest (msg : list Z) : string := hex (digest msg).

End MD5.

(** [hashlib.md5(content.encode()).hexdigest()] *)
Definition md5_hex (content : string) : string :=
  MD5.hexdigest (PyStr.encode content).


(** ** Exceptions *)

Inductive exception : Type :=
| JSONDecodeError
| TypeError
| ValueError
| NotImplementedError
| OSError
| NoSuchPathError
| InvalidGitRepositoryError
| GitCommandError.

Inductive result (A : Type) : Type :=
| Ok (a : A)
| Raise (e : exception).

Arguments Ok {A} a.
Arguments Raise {A} e.

#[global] Instance result_ret : MRet result := fun _ a => Ok a.

#[global] Instance result_bind : MBind result := fun _ _ f m =>
  match m with
  | Ok a => f a
  | Raise e => Raise e
  end.

(** [try: body except Exception as e: handler(e)] *)
Definition try_except {A : Type} (body : result A)
    (handler : exception -> result A) : result A :=
  match body with
  | Ok a => Ok a
  | Raise e => handler e
  end.

(** ** Data model *)

(** Values of the free-form [metadata] dictionary. *)
Inductive meta_value : Type :=
| MStr (s : string)
| MInt (n : Z).

(** [@dataclass ChangeDetection]; datetimes are seconds since the epoch. *)
Record ChangeDetection : Type := {
  source_name : string;
  source_type : string;
  change_type : string;
  timestamp : Z;
  content : string;
  metadata : list (string * meta_value);
  evidence_id : string
}.

(** The [config] dictionary of a source, with the keys the code reads. *)
Record SourceSettings : Type := {
  cfg_path : option string;
  cfg_branches : option (list string);
  cfg_file_patterns : option (list string);
  cfg_paths : option (list string);
  cfg_recursive : option bool
}.

(** [@dataclass DataSourceConfig] *)
Record DataSourceConfig : Type := {
  name : string;
  type : string;
  config : SourceSettings;
  last_check_timestamp : option Z;
  enabled : bool
}.

(** [self.last_run_state]: the four keys of the state file, each possibly
    absent in a loaded file, and the keys [file_checksums_<source name>]
    that [_detect_file_changes] adds in memory. *)
Record RunState : Type := {
  last_run_timestamp : option string;
  file_checksums : option (gmap string string);
  git_commit_hashes : option (gmap string string);
  processed_changes : option (list string);
  source_checksums : gmap string (gmap string string)
}.

(** The fields of an [IncrementalChangeDetector] that change during a run. *)
Record Detector : Type := {
  data_sources : list DataSourceConfig;
  last_run_state : RunState;
  detected_changes : list ChangeDetection
}.

(** ** The observed environment *)

(** A [git.Commit]; [stats_files] is [commit.stats.files.keys()]. *)
Record Commit : Type := {
  hexsha : string;
  message : string;
  author : string;
  committed_datetime : Z;
  stats_files : result (list string)
}.

(** A [git.Repo]: [iter_commits(rev)], [iter_commits(since=now - 1 day)],
    [git.show(spec)] and [head.commit.hexsha]. *)
Record Repo : Type := {
  iter_commits_rev : string -> result (list Commit);
  iter_commits_since : result (list Commit);
  git_show : string -> result string;
  head_commit : result string
}.

(** What a run reads: [Path(".").glob(pattern)] (paths as [str(file_path)]),
    [is_file], [read_text(encoding='utf-8', errors='ignore')], [stat],
    [Repo(path)] and the clock. Within one snapshot [stat] succeeds on a
    file that has just been read, so [st_mtime] and [st_size] are total. *)
Record Env : Type := {
  glob : string -> result (list string);
  is_file : string -> bool;
  read_text : string -> result string;
  st_mtime : string -> Z;
  st_size : string -> Z;
  open_repo : string -> result Repo;
  now_isoformat : string;
  now_stamp : string
}.

(** What [json.load] makes of a file. *)
Inductive json_file (A : Type) : Type :=
| Malformed
| Json (a : A).

Arguments Malformed {A}.
Arguments Json {A} a.

(** The files the program writes: the configuration file (its
    ["data_sources"] entry, when present), the state file and the
    consolidated reports. [None] is a file that does not exist. *)
Record World : Type := {
  config_file : option (json_file (option (list DataSourceConfig)));
  state_file : option (json_file RunState);
  consolidated : list (string * list ChangeDetection)
}.

(** ** IncrementalChangeDetector *)

(** [_should_process_file] *)
Definition _should_process_file (file_path : string) (patterns : list string)
    : bool :=
  match patterns with
  | [] => true
  | _ =>
      existsb
        (fun pattern => PyStr.endswith file_path (PyStr.remove_char "*" pattern))
        patterns
  end.

(** The [ChangeDetection] built in [_detect_git_changes]. *)
Definition git_change (source : DataSourceConfig) (commit : Commit)
    (file_path file_content : string) : ChangeDetection :=
  {| source_name := name source;
     source_type := "github_commit";
     change_type := "modified";
     timestamp := committed_datetime commit;
     content := PyStr.slice_to 5000 file_content;
     metadata :=
       [("commit_hash", MStr (hexsha commit));
        ("commit_message", MStr (PyStr.strip (message commit)));
        ("author", MStr (author commit));
        ("file_path", MStr file_path)];
     evidence_id :=
       "git_" +:+ name source +:+ "_" +:+ hexsha commit +:+ "_" +:+ file_path |}.

(** Body of [for file_path in commit.stats.files.keys()]: an error while
    reading one file is caught and the file skipped. *)
Definition git_file_step (repo : Repo) (source : DataSourceConfig)
    (commit : Commit) (changes : list ChangeDetection) (file_path : string)
    : list ChangeDetection :=
  if _should_process_file file_path
       (default [] (cfg_file_patterns (config source)))
  then
    match git_show repo (hexsha commit +:+ ":" +:+ file_path) with
    | Ok file_content =>
        changes ++ [git_change source commit file_path file_content]
    | Raise _ => changes
    end
  else changes.

(** [for commit in commits]: returns the changes appended so far and the
    exception that interrupted the loop, if any. *)
Fixpoint git_commits_loop (repo : Repo) (source : DataSourceConfig)
    (commits : list Commit) (changes : list ChangeDetection)
    : list ChangeDetection * option exception :=
  match commits with
  | [] => (changes, None)
  | commit :: rest =>
      match stats_files commit with
      | Raise e => (changes, Some e)
      | Ok files =>
          git_commits_loop repo source rest
            (fold_left (git_file_step repo source commit) files changes)
      end
  end.

(** [_detect_git_changes]: whatever is raised inside the outer [try] is
    caught, and the changes appended so far are returned. *)
Definition _detect_git_changes (env : Env) (st : RunState)
    (source : DataSourceConfig) : result (list ChangeDetection) :=
  let repo_path := default "." (cfg_path (config source)) in
  match open_repo env repo_path with
  | Raise _ => Ok []
  | Ok repo =>
      let last_commit_hash :=
        default ∅ (git_commit_hashes st) !! name source in
      let commits :=
        match last_commit_hash with
        | Some h =>
            if String.eqb h "" then iter_commits_since repo
            else iter_commits_rev repo (h +:+ "..HEAD")
        | None => iter_commits_since repo
        end in
      match commits with
      | Raise _ => Ok []
      | Ok commits => Ok (fst (git_commits_loop repo source commits []))
      end
  end.

(** The [ChangeDetection] built in [_detect_file_changes]; [known] is
    [str(file_path) in last_checksums]. *)
Definition file_change (env : Env) (source : DataSourceConfig)
    (file_path content checksum : string) (known : bool) : ChangeDetection :=
  {| source_name := name source;
     source_type := "file_modification";
     change_type := if known then "modified" else "added";
     timestamp := st_mtime env file_path;
     content := PyStr.slice_to 5000 content;
     metadata :=
       [("file_path", MStr file_path);
        ("file_size", MInt (st_size env file_path));
        ("checksum", MStr checksum)];
     evidence_id :=
       "file_" +:+ name source +:+ "_" +:+ checksum +:+ "_"
       +:+ PyStr.path_name file_path |}.

(** [str(file_path) not in last_checksums or
     last_checksums[str(file_path)] != checksum] *)
Definition new_or_modified (last_checksums : gmap string string)
    (file_path checksum : string) : bool :=
  match last_checksums !! file_path with
  | None => true
  | Some c => negb (String.eqb c checksum)
  end.

(** Body of [for file_path in Path(".").glob(pattern)] on the pair
    [(changes, current_checksums)]. *)
Definition file_step (env : Env) (source : DataSourceConfig)
    (last_checksums : gmap string string)
    (acc : list ChangeDetection * gmap string string) (file_path : string)
    : list ChangeDetection * gmap string string :=
  if is_file env file_path then
    match read_text env file_path with
    | Raise _ => acc
    | Ok content =>
        let checksum := md5_hex content in
        let current_checksums := <[file_path := checksum]> (snd acc) in
        if new_or_modified last_checksums file_path checksum then
          (fst acc ++
             [file_change env source file_path content checksum
                (bool_decide (is_Some (last_checksums !! file_path)))],
           current_checksums)
        else (fst acc, current_checksums)
    end
  else acc.

(** [for pattern in file_patterns]: an error raised by [glob] is not caught
    here. *)
Fixpoint file_patterns_loop (env : Env) (source : DataSourceConfig)
    (last_checksums : gmap string string) (patterns : list string)
    (acc : list ChangeDetection * gmap string string)
    : result (list ChangeDetection * gmap string string) :=
  match patterns with
  | [] => Ok acc
  | pattern :: rest =>
      match glob env pattern with
      | Raise e => Raise e
      | Ok paths =>
          file_patterns_loop env source last_checksums rest
            (fold_left (file_step env source last_checksums) paths acc)
      end
  end.

Definition source_key (source : DataSourceConfig) : string :=
  "file_checksums_" +:+ name source.

(** [self.last_run_state[source_key].update(current_checksums)], creating
    the entry when it is missing. *)
Definition update_source_checksums (st : RunState) (key : string)
    (current_checksums : gmap string string) : RunState :=
  {| last_run_timestamp := last_run_timestamp st;
     file_checksums := file_checksums st;
     git_commit_hashes := git_commit_hashes st;
     processed_changes := processed_changes st;
     source_checksums :=
       <[key := current_checksums ∪ default ∅ (source_checksums st !! key)]>
         (source_checksums st) |}.

(** [_detect_file_changes]: the changes and the updated run state. *)
Definition _detect_file_changes (env : Env) (st : RunState)
    (source : DataSourceConfig) : result (list ChangeDetection * RunState) :=
  let file_patterns := default [] (cfg_paths (config source)) in
  let last_checksums := default ∅ (file_checksums st) in
  '(changes, current_checksums) ←
    file_patterns_loop env source last_checksums file_patterns ([], ∅);
  Ok (changes, update_source_checksums st (source_key source) current_checksums).

(** [_detect_google_docs_changes] and [_detect_slack_changes] *)
Definition _detect_google_docs_changes (source : DataSourceConfig)
    : result (list ChangeDetection) := Ok [].

Definition _detect_slack_changes (source : DataSourceConfig)
    : result (list ChangeDetection) := Ok [].

Definition set_state (d : Detector) (st : RunState) : Detector :=
  {| data_sources := data_sources d;
     last_run_state := st;
     detected_changes := detected_changes d |}.

(** [self.detected_changes.extend(changes)] *)
Definition extend_changes (d : Detector) (changes : list ChangeDetection)
    : Detector :=
  {| data_sources := data_sources d;
     last_run_state := last_run_state d;
     detected_changes := detected_changes d ++ changes |}.

(** The [try] block of [detect_all_changes] for one enabled source. *)
Definition detect_source (env : Env) (d : Detector)
    (source : DataSourceConfig) : result Detector :=
  if String.eqb (type source) "github" then
    changes ← _detect_git_changes env (last_run_state d) source;
    Ok (extend_changes d changes)
  else if String.eqb (type source) "local_files" then
    '(changes, st) ← _detect_file_changes env (last_run_state d) source;
    Ok (extend_changes (set_state d st) changes)
  else if String.eqb (type source) "google_docs" then
    changes ← _detect_google_docs_changes source;
    Ok (extend_changes d changes)
  else if String.eqb (type source) "slack" then
    changes ← _detect_slack_changes source;
    Ok (extend_changes d changes)
  else Ok d.

(** [for source in self.data_sources] *)
Fixpoint detect_sources (env : Env) (sources : list DataSourceConfig)
    (d : Detector) : result Detector :=
  match sources with
  | [] => Ok d
  | source :: rest =>
      if negb (enabled source) then detect_sources env rest d
      else
        d' ← try_except (detect_source env d source) (fun _ => Ok d);
        detect_sources env rest d'
  end.

(** [detect_all_changes]: the returned list and the detector afterwards. *)
Definition detect_all_changes (env : Env) (d : Detector)
    : result (list ChangeDetection * Detector) :=
  let d0 :=
    {| data_sources := data_sources d;
       last_run_state := last_run_state d;
       detected_changes := [] |} in
  d' ← detect_sources env (data_sources d) d0;
  Ok (detected_changes d', d').

(** Body of the innermost loop of [_calculate_current_file_checksums]; the
    bare [except] skips a file that cannot be read. *)
Definition checksum_step (env : Env) (checksums : gmap string string)
    (file_path : string) : gmap string string :=
  if is_file env file_path then
    match read_text env file_path with
    | Ok content => <[file_path := md5_hex content]> checksums
    | Raise _ => checksums
    end
  else checksums.

Fixpoint checksum_patterns_loop (env : Env) (patterns : list string)
    (checksums : gmap string string) : result (gmap string string) :=
  match patterns with
  | [] => Ok checksums
  | pattern :: rest =>
      match glob env pattern with
      | Raise e => Raise e
      | Ok paths =>
          checksum_patterns_loop env rest
            (fold_left (checksum_step env) paths checksums)
      end
  end.

Fixpoint checksum_sources_loop (env : Env) (sources : list DataSourceConfig)
    (checksums : gmap string string) : result (gmap string string) :=
  match sources with
  | [] => Ok checksums
  | source :: rest =>
      if String.eqb (type source) "local_files" then
        checksums' ←
          checksum_patterns_loop env (default [] (cfg_paths (config source)))
            checksums;
        checksum_sources_loop env rest checksums'
      else checksum_sources_loop env rest checksums
  end.

(** [_calculate_current_file_checksums] *)
Definition _calculate_current_file_checksums (env : Env)
    (sources : list DataSourceConfig) : result (gmap string string) :=
  checksum_sources_loop env sources ∅.

(** Loop body of [_get_current_git_commits]; the bare [except] skips a
    repository that cannot be opened or has no HEAD commit. *)
Definition git_head_step (env : Env) (commits : gmap string string)
    (source : DataSourceConfig) : gmap string string :=
  if String.eqb (type source) "github" then
    match open_repo env (default "." (cfg_path (config source))) with
    | Ok repo =>
        match head_commit repo with
        | Ok h => <[name source := h]> commits
        | Raise _ => commits
        end
    | Raise _ => commits
    end
  else commits.

(** [_get_current_git_commits] *)
Definition _get_current_git_commits (env : Env)
    (sources : list DataSourceConfig) : gmap string string :=
  fold_left (git_head_step env) sources ∅.

(** The [current_state] dictionary of [save_current_state]. *)
Definition current_state (env : Env) (d : Detector) : result RunState :=
  checksums ← _calculate_current_file_checksums env (data_sources d);
  Ok {| last_run_timestamp := Some (now_isoformat env);
        file_checksums := Some checksums;
        git_commit_hashes :=
          Some (_get_current_git_commits env (data_sources d));
        processed_changes := Some (map evidence_id (detected_changes d));
        source_checksums := ∅ |}.

Definition write_state (w : World) (st : RunState) : World :=
  {| config_file := config_file w;
     state_file := Some (Json st);
     consolidated := consolidated w |}.

(** [save_current_state]: the state file is overwritten once the new state
    has been computed. *)
Definition save_current_state (env : Env) (d : Detector) (w : World)
    : result unit * World :=
  match current_state env d with
  | Raise e => (Raise e, w)
  | Ok st => (Ok tt, write_state w st)
  end.

(** [DataSourceConfig(name, type, config)] with the dataclass defaults. *)
Definition mk_source (n t : string) (c : SourceSettings) : DataSourceConfig :=
  {| name := n; type := t; config := c;
     last_check_timestamp := None; enabled := true |}.

(** [default_config["data_sources"]] of [create_default_configuration] *)
Definition default_data_sources : list DataSourceConfig :=
  [mk_source "Current Repository" "github"
     {| cfg_path := Some ".";
        cfg_branches := Some ["main"; "develop"];
        cfg_file_patterns := Some ["*.py"; "*.md"; "*.json"; "*.yml"; "*.yaml"];
        cfg_paths := None;
        cfg_recursive := None |};
   mk_source "Documentation Files" "local_files"
     {| cfg_path := None;
        cfg_branches := None;
        cfg_file_patterns := None;
        cfg_paths := Some ["docs/"; "README.md"; "*.md"];
        cfg_recursive := Some true |};
   mk_source "Configuration Files" "local_files"
     {| cfg_path := None;
        cfg_branches := None;
        cfg_file_patterns := None;
        cfg_paths :=
          Some ["package.json"; "requirements.txt"; "docker-compose.yml";
                "*.env*"];
        cfg_recursive := Some false |}].

(** [load_configuration], with [create_default_configuration] when the
    configuration file does not exist. *)
Definition load_configuration (w : World)
    : result (list DataSourceConfig) * World :=
  match config_file w with
  | Some Malformed => (Raise JSONDecodeError, w)
  | Some (Json config_data) => (Ok (default [] config_data), w)
  | None =>
      (Ok default_data_sources,
       {| config_file := Some (Json (Some default_data_sources));
          state_file := state_file w;
          consolidated := consolidated w |})
  end.

(** The state of a first run. *)
Definition empty_state : RunState :=
  {| last_run_timestamp := None;
     file_checksums := Some ∅;
     git_commit_hashes := Some ∅;
     processed_changes := Some [];
     source_checksums := ∅ |}.

(** [load_last_run_state] *)
Definition load_last_run_state (w : World) : result RunState :=
  match state_file w with
  | Some Malformed => Raise JSONDecodeError
  | Some (Json st) => Ok st
  | None => Ok empty_state
  end.

(** [IncrementalChangeDetector.__init__] *)
Definition init (w : World) : result Detector * World :=
  match load_configuration w with
  | (Raise e, w') => (Raise e, w')
  | (Ok sources, w') =>
      match load_last_run_state w' with
      | Raise e => (Raise e, w')
      | Ok st =>
          (Ok {| data_sources := sources;
                 last_run_state := st;
                 detected_changes := [] |}, w')
      end
  end.

(** [ConsolidatedSourceOfTruthGenerator.generate_consolidated_file]: the
    report is recorded by its path and the changes it was written from. *)
Definition generate_consolidated_file (env : Env)
    (changes : list ChangeDetection) (w : World) : string * World :=
  let output_file :=
    "consolidated_changes/consolidated_changes_" +:+ now_stamp env +:+ ".md" in
  (output_file,
   {| config_file := config_file w;
      state_file := state_file w;
      consolidated := consolidated w ++ [(output_file, changes)] |}).

(** [main]: [Ok None] is the early [return None]. *)
Definition main (env : Env) (w : World) : result (option string) * World :=
  match init w with
  | (Raise e, w1) => (Raise e, w1)
  | (Ok detector, w1) =>
      match detect_all_changes env detector with
      | Raise e => (Raise e, w1)
      | Ok (changes, detector') =>
          match changes with
          | [] => (Ok None, w1)
          | _ =>
              let '(consolidated_file, w2) :=
                generate_consolidated_file env changes w1 in
              match save_current_state env detector' w2 with
              | (Raise e, w3) => (Raise e, w3)
              | (Ok _, w3) => (Ok (Some consolidated_file), w3)
              end
          end
      end
  end.

(** ** The reconciler of the specification (section 4.4) *)

#[global] Instance result_fmap : FMap result := fun _ _ f m =>
  match m with
  | Ok a => Ok (f a)
  | Raise e => Raise e
  end.

Inductive classification : Type :=
| Added
| Modified
| Unchanged.

(** Unseen: added. Seen with fingerprint [F]: unchanged when the new
    fingerprint equals [F], modified otherwise. *)
Definition classify (stored : option string) (fingerprint : string)
    : classification :=
  match stored with
  | None => Added
  | Some F => if String.eqb fingerprint F then Unchanged else Modified
  end.

(** What the state machine emits for one enumerated path: nothing when the
    path is unchanged (or is not a readable regular file), one record
    otherwise. *)
Definition reconcile_file (env : Env) (source : DataSourceConfig)
    (stored : gmap string string) (file_path : string)
    : list ChangeDetection :=
  if is_file env file_path then
    match read_text env file_path with
    | Ok content =>
        match classify (stored !! file_path) (md5_hex content) with
        | Added =>
            [file_change env source file_path content (md5_hex content) false]
        | Modified =>
            [file_change env source file_path content (md5_hex content) true]
        | Unchanged => []
        end
    | Raise _ => []
    end
  else [].

(** All enumerations of a list of patterns, in order; raises when one
    [glob] raises. *)
Fixpoint glob_all (env : Env) (patterns : list string)
    : result (list string) :=
  match patterns with
  | [] => Ok []
  | pattern :: rest =>
      paths ← glob env pattern;
      more ← glob_all env rest;
      Ok (paths ++ more)
  end.

(** What one source adds to the list returned by [detect_all_changes]. *)
Definition adapter_changes (env : Env) (st : RunState)
    (source : DataSourceConfig) : list ChangeDetection :=
  if negb (enabled source) then []
  else if String.eqb (type source) "github" then
    match _detect_git_changes env st source with
    | Ok changes => changes
    | Raise _ => []
    end
  else if String.eqb (type source) "local_files" then
    match _detect_file_changes env st source with
    | Ok (changes, _) => changes
    | Raise _ => []
    end
  else [].

(** Two run states with the same persisted fingerprints. *)
Definition same_store (st st' : RunState) : Prop :=
  file_checksums st = file_checksums st'
  /\ git_commit_hashes st = git_commit_hashes st'.

(** ** Reading emitted records *)

Fixpoint meta_lookup (key : string) (m : list (string * meta_value))
    : option meta_value :=
  match m with
  | [] => None
  | (k, v) :: rest => if String.eqb k key then Some v else meta_lookup key rest
  end.

(** [change.metadata.get('file_path')] *)
Definition file_path_of (c : ChangeDetection) : option string :=
  match meta_lookup "file_path" (metadata c) with
  | Some (MStr p) => Some p
  | _ => None
  end.

(** [change.metadata.get('checksum')] *)
Definition checksum_of (c : ChangeDetection) : option string :=
  match meta_lookup "checksum" (metadata c) with
  | Some (MStr p) => Some p
  | _ => None
  end.

Definition is_file_record (c : ChangeDetection) : bool :=
  String.eqb (source_type c) "file_modification".

Definition is_record_for (file_path : string) (c : ChangeDetection) : bool :=
  is_file_record c
  && match file_path_of c with
     | Some p => String.eqb p file_path
     | None => false
     end.

(** The records of the filesystem adapter about one path. *)
Definition records_for (file_path : string) (changes : list ChangeDetection)
    : list ChangeDetection :=
  List.filter (is_record_for file_path) changes.

(** A regular file whose text can be read. *)
Definition readable (env : Env) (file_path : string) : bool :=
  is_file env file_path
  && match read_text env file_path with
     | Ok _ => true
     | Raise _ => false
     end.

(** The readable files an enabled filesystem source enumerates, one entry
    per pattern that yields the file; empty when one of its patterns makes
    [glob] raise. *)
Definition source_files (env : Env) (source : DataSourceConfig)
    : list string :=
  if enabled source && String.eqb (type source) "local_files" then
    match glob_all env (default [] (cfg_paths (config source))) with
    | Ok paths => List.filter (readable env) paths
    | Raise _ => []
    end
  else [].

Definition enumerated (env : Env) (sources : list DataSourceConfig)
    : list string :=
  flat_map (source_files env) sources.

(** How often a path is enumerated during a run. *)
Definition enumerations (env : Env) (sources : list DataSourceConfig)
    (file_path : string) : nat :=
  length (List.filter (String.eqb file_path) (enumerated env sources)).

(** ** The git adapter, record by record *)

(** What the git adapter emits for one file of a commit: one record when
    the allow-list accepts the path and [git show] returns its text. *)
Definition git_file_records (repo : Repo) (source : DataSourceConfig)
    (commit : Commit) (file_path : string) : list ChangeDetection :=
  if _should_process_file file_path
       (default [] (cfg_file_patterns (config source)))
  then
    match git_show repo (hexsha commit +:+ ":" +:+ file_path) with
    | Ok text => [git_change source commit file_path text]
    | Raise _ => []
    end
  else [].

Definition commit_records (repo : Repo) (source : DataSourceConfig)
    (commit : Commit) : list ChangeDetection :=
  match stats_files commit with
  | Ok files => flat_map (git_file_records repo source commit) files
  | Raise _ => []
  end.

(** The commits of a listing up to the first one whose [stats] raise. *)
Fixpoint commits_before_failure (commits : list Commit) : list Commit :=
  match commits with
  | [] => []
  | commit :: rest =>
      match stats_files commit with
      | Ok _ => commit :: commits_before_failure rest
      | Raise _ => []
      end
  end.

(** A source that can add records: enabled, and of a kind with an
    adapter that is implemented. *)
Definition active (source : DataSourceConfig) : bool :=
  enabled source
  && (String.eqb (type source) "github"
      || String.eqb (type source) "local_files").

(** ** ConsolidatedSourceOfTruthGenerator: the categories of a report *)

(** [change.metadata.get('file_path', '')]; the detector stores a string
    under that key in every record. *)
Definition metadata_file_path (c : ChangeDetection) : string :=
  match meta_lookup "file_path" (metadata c) with
  | Some (MStr p) => p
  | _ => ""
  end.

Inductive category : Type :=
| TechnicalCode
| Documentation
| Configuration
| Other.

(** [any(ext in file_path for ext in exts)] *)
Definition any_in (exts : list string) (file_path : string) : bool :=
  existsb (fun ext => PyStr.contains file_path ext) exts.

(** The [if]/[elif] chain of [_write_changes_by_type]. *)
Definition category_of (file_path : string) : category :=
  if any_in [".py"; ".js"; ".ts"; ".jsx"; ".tsx"] file_path then TechnicalCode
  else if any_in [".md"; ".rst"; ".txt"] file_path then Documentation
  else if any_in [".json"; ".yml"; ".yaml"; ".env"] file_path
  then Configuration
  else Other.

(** The [categories] dictionary of [_write_changes_by_type]. *)
Record Categories : Type := {
  technical_code : list ChangeDetection;
  documentation : list ChangeDetection;
  configuration : list ChangeDetection;
  other : list ChangeDetection
}.

(** Body of [for change in changes] in [_write_changes_by_type]. *)
Definition categorize_step (cats : Categories) (change : ChangeDetection)
    : Categories :=
  match category_of (metadata_file_path change) with
  | TechnicalCode =>
      {| technical_code := technical_code cats ++ [change];
         documentation := documentation cats;
         configuration := configuration cats;
         other := other cats |}
  | Documentation =>
      {| technical_code := technical_code cats;
         documentation := documentation cats ++ [change];
         configuration := configuration cats;
         other := other cats |}
  | Configuration =>
      {| technical_code := technical_code cats;
         documentation := documentation cats;
         configuration := configuration cats ++ [change];
         other := other cats |}
  | Other =>
      {| technical_code := technical_code cats;
         documentation := documentation cats;
         configuration := configuration cats;
         other := other cats ++ [change] |}
  end.

Definition categorize (changes : list ChangeDetection) : Categories :=
  fold_left categorize_step changes
    {| technical_code := []; documentation := [];
       configuration := []; other := [] |}.

Definition category_eqb (a b : category) : bool :=
  match a, b with
  | TechnicalCode, TechnicalCode => true
  | Documentation, Documentation => true
  | Configuration, Configuration => true
  | Other, Other => true
  | _, _ => false
  end.

(** The changes of one category, in the order of the input. *)
Definition in_category (k : category) (changes : list ChangeDetection)
    : list ChangeDetection :=
  List.filter
    (fun c => category_eqb (category_of (metadata_file_path c)) k) changes.

(** ** MainOrchestrator: counting changes (main_orchestrator.py) *)

(** [groups[key] = groups.get(key, 0) + 1] *)
Definition group_step (key : ChangeDetection -> string)
    (groups : gmap string nat) (change : ChangeDetection)
    : gmap string nat :=
  <[key change := default 0 (groups !! key change) + 1]> groups.

(** [_group_changes_by_source]; the same loop fills [source_counts] in
    [_write_change_summary]. *)
Definition _group_changes_by_source (changes : list ChangeDetection)
    : gmap string nat :=
  fold_left (group_step source_name) changes ∅.

(** [_group_changes_by_type]; the same loop fills [type_counts] in
    [_write_change_summary]. *)
Definition _group_changes_by_type (changes : list ChangeDetection)
    : gmap string nat :=
  fold_left (group_step change_type) changes ∅.

(** The number of changes whose key is [k]. *)
Definition count_by (key : ChangeDetection -> string) (k : string)
    (changes : list ChangeDetection) : nat :=
  length (List.filter (fun c => String.eqb (key c) k) changes).

(** The sum of the values of a dictionary of counts. *)
Definition total (groups : gmap string nat) : nat :=
  map_fold (fun _ n acc => n + acc) 0 groups.

(** ** Conditions on the environment *)

(** A source fails when its repository cannot be opened, when its
    patterns name nothing that exists, or when its adapter raises into the
    loop of [detect_all_changes]. *)
Definition source_fails (env : Env) (source : DataSourceConfig) : Prop :=
  (type source = "github"
   /\ exists e,
        open_repo env (default "." (cfg_path (config source))) = Raise e)
  \/ (type source = "local_files"
      /\ glob_all env (default [] (cfg_paths (config source))) = Ok [])
  \/ (exists d e, detect_source env d source = Raise e).

(** A listing of commits that is empty or fails. *)
Definition no_commits (r : result (list Commit)) : bool :=
  match r with
  | Ok [] => true
  | Ok (_ :: _) => false
  | Raise _ => true
  end.

(** What git guarantees of a repository that does not move: the revision
    of HEAD is not the empty string and the range from HEAD to HEAD holds
    no commit; a repository without a HEAD commit lists no commit. *)
Definition repo_settled (repo : Repo) : Prop :=
  match head_commit repo with
  | Ok h => h <> "" /\ no_commits (iter_commits_rev repo (h +:+ "..HEAD")) = true
  | Raise _ => no_commits (iter_commits_since repo) = true
  end.

Definition github_names (sources : list DataSourceConfig) : list string :=
  map name (List.filter (fun s => String.eqb (type s) "github") sources).

(** The git sources have distinct names, and the repositories of the
    enabled ones are settled. *)
Definition git_settled (env : Env) (sources : list DataSourceConfig) : Prop :=
  List.NoDup (github_names sources)
  /\ forall source repo,
       In source sources ->
       enabled source = true ->
       type source = "github" ->
       open_repo env (default "." (cfg_path (config source))) = Ok repo ->
       repo_settled repo.

(** ** Concrete snapshots used in the examples *)

Module Scenario.

(** A directory that holds the single file [README.md]; there is no git
    repository. *)
Definition readme_env (text : string) : Env :=
  {| glob := fun pattern =>
       if String.eqb pattern "README.md" || String.eqb pattern "*.md"
       then Ok ["README.md"] else Ok [];
     is_file := fun p => String.eqb p "README.md";
     read_text := fun p =>
       if String.eqb p "README.md" then Ok text else Raise OSError;
     st_mtime := fun _ => 1700000000%Z;
     st_size := fun _ => Z.of_nat (length (PyStr.encode text));
     open_repo := fun _ => Raise NoSuchPathError;
     now_isoformat := "2024-01-01T00:00:00";
     now_stamp := "20240101_000000" |}.

Definition local_files (n : string) (patterns : list string)
    : DataSourceConfig :=
  mk_source n "local_files"
    {| cfg_path := None; cfg_branches := None; cfg_file_patterns := None;
       cfg_paths := Some patterns; cfg_recursive := None |}.

Definition github (n path : string) (patterns : list string)
    : DataSourceConfig :=
  mk_source n "github"
    {| cfg_path := Some path; cfg_branches := None;
       cfg_file_patterns := Some patterns;
       cfg_paths := None; cfg_recursive := None |}.

Definition detector (sources : list DataSourceConfig) (st : RunState)
    : Detector :=
  {| data_sources := sources; last_run_state := st; detected_changes := [] |}.

(** The state file after a run that saw [README.md] with text "hello". *)
Definition readme_state : RunState :=
  {| last_run_timestamp := Some "2023-12-31T00:00:00";
     file_checksums := Some {[ "README.md" := md5_hex "hello" ]};
     git_commit_hashes := Some ∅;
     processed_changes := Some [];
     source_checksums := ∅ |}.

(** A repository at ["."] with one commit that touched [app.py]. *)
Definition first_commit : Commit :=
  {| hexsha := "3f786850e387550fdab836ed7e6dc881de23001b";
     message := "initial import
";
     author := "dev";
     committed_datetime := 1700000000%Z;
     stats_files := Ok ["app.py"] |}.

Definition one_commit_repo : Repo :=
  {| iter_commits_rev := fun rev =>
       if String.eqb rev "3f786850e387550fdab836ed7e6dc881de23001b..HEAD"
       then Ok [] else Raise GitCommandError;
     iter_commits_since := Ok [first_commit];
     git_show := fun spec =>
       if String.eqb spec "3f786850e387550fdab836ed7e6dc881de23001b:app.py"
       then Ok "print(1)" else Raise GitCommandError;
     head_commit := Ok "3f786850e387550fdab836ed7e6dc881de23001b" |}.

Definition repo_env : Env :=
  {| glob := fun _ => Ok [];
     is_file := fun _ => false;
     read_text := fun _ => Raise OSError;
     st_mtime := fun _ => 0%Z;
     st_size := fun _ => 0%Z;
     open_repo := fun path =>
       if String.eqb path "." then Ok one_commit_repo
       else Raise NoSuchPathError;
     now_isoformat := "2024-01-01T00:00:00";
     now_stamp := "20240101_000000" |}.

(** Two directories that each hold a file [x.md] with the same text. *)
Definition twin_env : Env :=
  {| glob := fun pattern =>
       if String.eqb pattern "*/x.md" then Ok ["a/x.md"; "b/x.md"] else Ok [];
     is_file := fun p => String.eqb p "a/x.md" || String.eqb p "b/x.md";
     read_text := fun p =>
       if String.eqb p "a/x.md" || String.eqb p "b/x.md" then Ok "hello"
       else Raise OSError;
     st_mtime := fun _ => 1700000000%Z;
     st_size := fun _ => 5%Z;
     open_repo := fun _ => Raise NoSuchPathError;
     now_isoformat := "2024-01-01T00:00:00";
     now_stamp := "20240101_000000" |}.

(** [README.md] next to a source whose absolute pattern makes
    [Path.glob] raise. *)
Definition absolute_env (text : string) : Env :=
  {| glob := fun pattern =>
       if PyStr.startswith pattern "/" then Raise NotImplementedError
       else glob (readme_env text) pattern;
     is_file := is_file (readme_env text);
     read_text := read_text (readme_env text);
     st_mtime := st_mtime (readme_env text);
     st_size := st_size (readme_env text);
     open_repo := open_repo (readme_env text);
     now_isoformat := now_isoformat (readme_env text);
     now_stamp := now_stamp (readme_env text) |}.

(** [README.md] inside the working tree of [one_commit_repo]. *)
Definition project_env (text : string) : Env :=
  {| glob := glob (readme_env text);
     is_file := is_file (readme_env text);
     read_text := read_text (readme_env text);
     st_mtime := st_mtime (readme_env text);
     st_size := st_size (readme_env text);
     open_repo := open_repo repo_env;
     now_isoformat := now_isoformat (readme_env text);
     now_stamp := now_stamp (readme_env text) |}.

Fixpoint replicate (n : nat) (c : ascii) : string :=
  match n with
  | O => EmptyString
  | S n' => String c (replicate n' c)
  end.

(** A first run without configuration or state file. *)
Definition fresh_world : World :=
  {| config_file := None; state_file := None; consolidated := [] |}.

(** A later run: default configuration, state of [readme_state]. *)
Definition later_world : World :=
  {| config_file := Some (Json (Some default_data_sources));
     state_file := Some (Json readme_state);
     consolidated := [] |}.

(** The state file was damaged. *)
Definition damaged_world : World :=
  {| config_file := Some (Json (Some default_data_sources));
     state_file := Some Malformed;
     consolidated := [] |}.

(** A repository whose saved revision is followed by three commits, listed
    newest first: the newest touches three files, of which [logo.png] is
    not on the allow-list and [README.md] cannot be shown; the statistics
    of the middle one cannot be read. *)
Definition newest_commit : Commit :=
  {| hexsha := "c3c3c3c3c3c3c3c3c3c3c3c3c3c3c3c3c3c3c3c3";
     message := "add docs";
     author := "dev";
     committed_datetime := 1700000300%Z;
     stats_files := Ok ["app.py"; "logo.png"; "README.md"] |}.

Definition middle_commit : Commit :=
  {| hexsha := "b2b2b2b2b2b2b2b2b2b2b2b2b2b2b2b2b2b2b2b2";
     message := "merge";
     author := "dev";
     committed_datetime := 1700000200%Z;
     stats_files := Raise GitCommandError |}.

Definition oldest_commit : Commit :=
  {| hexsha := "a1a1a1a1a1a1a1a1a1a1a1a1a1a1a1a1a1a1a1a1";
     message := "fix";
     author := "dev";
     committed_datetime := 1700000100%Z;
     stats_files := Ok ["lib.py"] |}.

Definition history_repo : Repo :=
  {| iter_commits_rev := fun rev =>
       if String.eqb rev "3f786850e387550fdab836ed7e6dc881de23001b..HEAD"
       then Ok [newest_commit; middle_commit; oldest_commit]
       else Raise GitCommandError;
     iter_commits_since := Ok [newest_commit; middle_commit; oldest_commit];
     git_show := fun spec =>
       if String.eqb spec "c3c3c3c3c3c3c3c3c3c3c3c3c3c3c3c3c3c3c3c3:app.py"
       then Ok "print(3)"
       else if String.eqb spec
                 "a1a1a1a1a1a1a1a1a1a1a1a1a1a1a1a1a1a1a1a1:lib.py"
       then Ok "x = 1"
       else Raise GitCommandError;
     head_commit := Ok "c3c3c3c3c3c3c3c3c3c3c3c3c3c3c3c3c3c3c3c3" |}.

Definition history_env : Env :=
  {| glob := fun _ => Ok [];
     is_file := fun _ => false;
     read_text := fun _ => Raise OSError;
     st_mtime := fun _ => 0%Z;
     st_size := fun _ => 0%Z;
     open_repo := fun path =>
       if String.eqb path "." then Ok history_repo
       else Raise NoSuchPathError;
     now_isoformat := "2024-01-02T00:00:00";
     now_stamp := "20240102_000000" |}.

(** The state saved when HEAD was the commit of [one_commit_repo]. *)
Definition history_state : RunState :=
  {| last_run_timestamp := Some "2024-01-01T00:00:00";
     file_checksums := Some ∅;
     git_commit_hashes :=
       Some {[ "Current Repository" :=
                 "3f786850e387550fdab836ed7e6dc881de23001b" ]};
     processed_changes := Some [];
     source_checksums := ∅ |}.

(** A source that is switched off. *)
Definition disabled (source : DataSourceConfig) : DataSourceConfig :=
  {| name := name source; type := type source; config := config source;
     last_check_timestamp := last_check_timestamp source;
     enabled := false |}.

(** The configuration file cannot be parsed. *)
Definition misconfigured_world : World :=
  {| config_file := Some Malformed; state_file := None; consolidated := [] |}.

End Scenario.

(** * Properties *)

(** ** Test vectors *)

Example md5_empty : md5_hex "" = "d41d8cd98f00b204e9800998ecf8427e".
Proof. vm_compute. reflexivity. Qed.

Example md5_hello : md5_hex "hello" = "5d41402abc4b2a76b9719d911017c592".
Proof. vm_compute. reflexivity. Qed.

Example md5_hello_world :
  md5_hex "hello world" = "5eb63bbbe01eeed093cb22bb8f5acdc3".
Proof. vm_compute. reflexivity. Qed.

Example md5_two_blocks :
  md5_hex (Scenario.replicate 64 "a") = "014842d480b571495a4a0363793f7367".
Proof. vm_compute. reflexivity. Qed.

Example path_name_nested : PyStr.path_name "docs/a/README.md" = "README.md".
Proof. reflexivity. Qed.

Example should_process_suffix :
  _should_process_file "src/app.py" ["*.md"; "*.py"] = true
  /\ _should_process_file "src/app.rs" ["*.md"; "*.py"] = false
  /\ _should_process_file "src/app.rs" [] = true.
Proof. repeat split. Qed.

Example strip_message : PyStr.strip (message Scenario.first_commit)
                        = "initial import".
Proof. reflexivity. Qed.

(** ** The filesystem adapter against the reconciler *)

Lemma new_or_modified_classify (stored : gmap string string)
    (file_path checksum : string) :
  new_or_modified stored file_path checksum =
  match classify (stored !! file_path) checksum with
  | Unchanged => false
  | _ => true
  end.
Proof.
  unfold new_or_modified, classify.
  destruct (stored !! file_path) as [c|]; [|done].
  rewrite String.eqb_sym. by destruct (String.eqb checksum c).
Qed.

Lemma file_step_fst env source stored acc file_path :
  fst (file_step env source stored acc file_path) =
  fst acc ++ reconcile_file env source stored file_path.
Proof.
  unfold file_step, reconcile_file.
  destruct (is_file env file_path); [|by rewrite app_nil_r].
  destruct (read_text env file_path) as [text|e]; [|by rewrite app_nil_r].
  rewrite new_or_modified_classify. unfold classify.
  destruct (stored !! file_path) as [c|]; simpl; [|done].
  destruct (String.eqb (md5_hex text) c); simpl; [by rewrite app_nil_r|done].
Qed.

Lemma fold_file_step_fst env source stored paths acc :
  fst (fold_left (file_step env source stored) paths acc) =
  fst acc ++ flat_map (reconcile_file env source stored) paths.
Proof.
  revert acc. induction paths as [|p paths IH]; intros acc; simpl.
  - by rewrite app_nil_r.
  - rewrite IH, file_step_fst. by rewrite <- app_assoc.
Qed.

Lemma file_patterns_loop_glob_all env source stored patterns acc :
  file_patterns_loop env source stored patterns acc =
  paths ← glob_all env patterns;
  Ok (fold_left (file_step env source stored) paths acc).
Proof.
  revert acc. induction patterns as [|p patterns IH]; intros acc; simpl.
  - done.
  - destruct (glob env p) as [paths|e]; simpl; [|done].
    rewrite IH. destruct (glob_all env patterns) as [more|e]; simpl; [|done].
    by rewrite fold_left_app.
Qed.

(** The changes of [_detect_file_changes] are those of the reconciler over
    the enumerated paths. *)
Lemma detect_file_changes_reconcile env st source :
  fst <$> _detect_file_changes env st source =
  flat_map (reconcile_file env source (default ∅ (file_checksums st)))
    <$> glob_all env (default [] (cfg_paths (config source))).
Proof.
  unfold _detect_file_changes. rewrite file_patterns_loop_glob_all.
  destruct (glob_all env _) as [paths|e]; simpl; [|done].
  pose proof (fold_file_step_fst env source (default ∅ (file_checksums st))
                paths ([], ∅)) as H.
  destruct (fold_left _ paths _) as [changes current]. simpl in *.
  by rewrite H.
Qed.

Lemma detect_file_changes_raise_iff env st source e :
  _detect_file_changes env st source = Raise e <->
  glob_all env (default [] (cfg_paths (config source))) = Raise e.
Proof.
  unfold _detect_file_changes. rewrite file_patterns_loop_glob_all.
  destruct (glob_all env _) as [paths|e2]; simpl.
  - destruct (fold_left _ paths _). simpl. split; discriminate.
  - split; intros [= ->]; done.
Qed.

Lemma detect_file_changes_same_store env st source changes st2 :
  _detect_file_changes env st source = Ok (changes, st2) -> same_store st st2.
Proof.
  unfold _detect_file_changes.
  destruct (file_patterns_loop _ _ _ _ _) as [[c cur]|e]; simpl; [|done].
  intros [= <- <-]. by split.
Qed.

(** ** Every source adds its own changes and nothing else *)

Lemma same_store_refl st : same_store st st.
Proof. by split. Qed.

Lemma same_store_trans st1 st2 st3 :
  same_store st1 st2 -> same_store st2 st3 -> same_store st1 st3.
Proof. intros [H1 H2] [H3 H4]. split; congruence. Qed.

Lemma detect_git_changes_same_store env st1 st2 source :
  same_store st1 st2 ->
  _detect_git_changes env st1 source = _detect_git_changes env st2 source.
Proof. intros [_ Hg]. unfold _detect_git_changes. by rewrite Hg. Qed.

Lemma adapter_changes_same_store env st1 st2 source :
  same_store st1 st2 ->
  adapter_changes env st1 source = adapter_changes env st2 source.
Proof.
  intros Hs. unfold adapter_changes.
  rewrite (detect_git_changes_same_store env st1 st2 source Hs).
  pose proof (detect_file_changes_reconcile env st1 source) as H1.
  pose proof (detect_file_changes_reconcile env st2 source) as H2.
  destruct Hs as [Hf _]. rewrite Hf in H1. rewrite <- H2 in H1.
  destruct (_detect_file_changes env st1 source) as [[c1 s1]|e1],
    (_detect_file_changes env st2 source) as [[c2 s2]|e2];
    simpl in H1; try discriminate; by simplify_eq.
Qed.

Lemma detect_git_changes_ok env st source :
  exists changes, _detect_git_changes env st source = Ok changes.
Proof.
  unfold _detect_git_changes.
  destruct (open_repo env _) as [repo|e]; [|by eexists].
  destruct (default ∅ (git_commit_hashes st) !! name source) as [h|].
  - destruct (String.eqb h "").
    + destruct (iter_commits_since repo); by eexists.
    + destruct (iter_commits_rev repo _); by eexists.
  - destruct (iter_commits_since repo); by eexists.
Qed.

(** One turn of the loop of [detect_all_changes] on an enabled source. *)
Lemma detect_source_step env d source :
  enabled source = true ->
  exists d',
    try_except (detect_source env d source) (fun _ => Ok d) = Ok d'
    /\ data_sources d' = data_sources d
    /\ same_store (last_run_state d) (last_run_state d')
    /\ detected_changes d' =
       detected_changes d ++ adapter_changes env (last_run_state d) source.
Proof.
  intros Hen. unfold detect_source, adapter_changes. rewrite Hen. simpl.
  destruct (String.eqb (type source) "github").
  { destruct (detect_git_changes_ok env (last_run_state d) source) as [c ->].
    simpl. eexists. split; [done|]. simpl. by repeat split. }
  destruct (String.eqb (type source) "local_files").
  { destruct (_detect_file_changes env (last_run_state d) source)
      as [[c st2]|e] eqn:E; simpl.
    - eexists. split; [done|]. simpl. split; [done|]. split; [|done].
      by eapply detect_file_changes_same_store.
    - exists d. rewrite app_nil_r. by repeat split. }
  destruct (String.eqb (type source) "google_docs").
  { simpl. eexists. split; [done|]. simpl. by repeat split. }
  destruct (String.eqb (type source) "slack").
  { simpl. eexists. split; [done|]. simpl. by repeat split. }
  exists d. rewrite app_nil_r. by repeat split.
Qed.

Lemma adapter_changes_disabled env st source :
  enabled source = false -> adapter_changes env st source = [].
Proof. intros H. unfold adapter_changes. by rewrite H. Qed.

(** The loop never raises, keeps the persisted fingerprints, and appends the
    changes of each source in configuration order. *)
Lemma detect_sources_spec env sources d :
  exists d',
    detect_sources env sources d = Ok d'
    /\ data_sources d' = data_sources d
    /\ same_store (last_run_state d) (last_run_state d')
    /\ detected_changes d' =
       detected_changes d
       ++ flat_map (adapter_changes env (last_run_state d)) sources.
Proof.
  revert d. induction sources as [|source rest IH]; intros d; simpl.
  - exists d. rewrite app_nil_r. by repeat split.
  - destruct (enabled source) eqn:Hen; simpl.
    + destruct (detect_source_step env d source Hen)
        as (d1 & -> & Hds & Hst & Hch).
      simpl. destruct (IH d1) as (d2 & -> & Hds2 & Hst2 & Hch2).
      exists d2. split; [done|]. split; [congruence|].
      split; [by eapply same_store_trans|].
      rewrite Hch2, Hch, <- app_assoc. do 2 f_equal.
      apply flat_map_ext. intros s. symmetry.
      by apply adapter_changes_same_store.
    + destruct (IH d) as (d2 & -> & Hds2 & Hst2 & Hch2).
      exists d2. repeat split; try done; try apply Hst2.
      by rewrite adapter_changes_disabled.
Qed.

(** [detect_all_changes] returns the concatenation of what the sources
    add, in configuration order. *)
Lemma detect_all_changes_spec env d :
  exists d',
    detect_all_changes env d =
      Ok (flat_map (adapter_changes env (last_run_state d)) (data_sources d),
          d')
    /\ data_sources d' = data_sources d
    /\ same_store (last_run_state d) (last_run_state d')
    /\ detected_changes d' =
       flat_map (adapter_changes env (last_run_state d)) (data_sources d).
Proof.
  unfold detect_all_changes.
  destruct (detect_sources_spec env (data_sources d)
              {| data_sources := data_sources d;
                 last_run_state := last_run_state d;
                 detected_changes := [] |}) as (d1 & -> & Hds & Hst & Hch).
  simpl in *. exists d1. rewrite Hch.
  split; [done|]. split; [done|]. split; [exact Hst|done].
Qed.

(** ** Properties of every emitted record *)

Section EmittedRecords.

Variable P : ChangeDetection -> Prop.
Hypothesis P_git : forall source commit file_path text,
  P (git_change source commit file_path text).
Hypothesis P_file : forall env source file_path text checksum known,
  P (file_change env source file_path text checksum known).

Lemma git_file_step_Forall repo source commit changes file_path :
  Forall P changes ->
  Forall P (git_file_step repo source commit changes file_path).
Proof.
  intros H. unfold git_file_step.
  destruct (_should_process_file _ _); [|done].
  destruct (git_show repo _); [|done].
  apply Forall_app. split; [done|]. by constructor.
Qed.

Lemma git_files_Forall repo source commit files changes :
  Forall P changes ->
  Forall P (fold_left (git_file_step repo source commit) files changes).
Proof.
  revert changes. induction files as [|f files IH]; intros changes H; simpl.
  - done.
  - by apply IH, git_file_step_Forall.
Qed.

Lemma git_commits_loop_Forall repo source commits changes :
  Forall P changes ->
  Forall P (fst (git_commits_loop repo source commits changes)).
Proof.
  revert changes.
  induction commits as [|c commits IH]; intros changes H; simpl.
  - done.
  - destruct (stats_files c) as [files|e]; [|done].
    by apply IH, git_files_Forall.
Qed.

Lemma detect_git_changes_Forall env st source changes :
  _detect_git_changes env st source = Ok changes -> Forall P changes.
Proof.
  unfold _detect_git_changes.
  destruct (open_repo env _) as [repo|e]; [|by intros [= <-]].
  destruct (match default ∅ (git_commit_hashes st) !! name source with
            | Some h =>
                if String.eqb h "" then iter_commits_since repo
                else iter_commits_rev repo (h +:+ "..HEAD")
            | None => iter_commits_since repo
            end) as [commits|e]; [|by intros [= <-]].
  intros [= <-]. by apply git_commits_loop_Forall.
Qed.

Lemma reconcile_file_Forall env source stored file_path :
  Forall P (reconcile_file env source stored file_path).
Proof.
  unfold reconcile_file.
  destruct (is_file env file_path); [|done].
  destruct (read_text env file_path) as [text|e]; [|done].
  destruct (classify _ _); by repeat constructor.
Qed.

Lemma adapter_changes_Forall env st source :
  Forall P (adapter_changes env st source).
Proof.
  unfold adapter_changes.
  destruct (negb (enabled source)); [done|].
  destruct (String.eqb (type source) "github").
  { destruct (_detect_git_changes env st source) as [c|e] eqn:E; [|done].
    by eapply detect_git_changes_Forall. }
  destruct (String.eqb (type source) "local_files"); [|done].
  pose proof (detect_file_changes_reconcile env st source) as H.
  destruct (_detect_file_changes env st source) as [[c st2]|e]; [|done].
  destruct (glob_all env _) as [paths|e]; simpl in H; [|done].
  injection H as ->.
  apply Forall_flat_map, Forall_forall. intros p _.
  apply reconcile_file_Forall.
Qed.

Lemma detect_all_changes_Forall env d changes d' :
  detect_all_changes env d = Ok (changes, d') -> Forall P changes.
Proof.
  destruct (detect_all_changes_spec env d) as (d1 & -> & _).
  intros [= <- _]. apply Forall_flat_map, Forall_forall. intros s _.
  apply adapter_changes_Forall.
Qed.

End EmittedRecords.

Lemma slice_to_length n s : String.length (PyStr.slice_to n s) <= n.
Proof.
  revert s. induction n as [|n IH]; intros [|c s]; simpl; try lia.
  specialize (IH s). lia.
Qed.

(** C7. Every record returned by [detect_all_changes], whether it comes
    from the git adapter or from the filesystem adapter, carries a content
    excerpt of at most 5000 characters. *)
Theorem content_excerpt_bounded env d changes d' :
  detect_all_changes env d = Ok (changes, d') ->
  Forall (fun c => PyStr.len (content c) <= 5000) changes.
Proof.
  apply detect_all_changes_Forall.
  - intros. apply slice_to_length.
  - intros. apply slice_to_length.
Qed.

(** A [README.md] of 6000 characters, enumerated twice by the default
    configuration: both records are cut to 5000 characters. *)
Lemma content_excerpt_bounded_witness :
  let env := Scenario.readme_env (Scenario.replicate (60 * 100) "a") in
  let d := Scenario.detector default_data_sources empty_state in
  exists changes d',
    detect_all_changes env d = Ok (changes, d')
    /\ map (fun c => PyStr.len (content c)) changes = [5000; 5000]
    /\ Forall (fun c => PyStr.len (content c) <= 5000) changes.
Proof.
  intros env d.
  destruct (detect_all_changes_spec env d) as (d' & H & _).
  eexists _, d'. split; [exact H|]. split; [vm_compute; reflexivity|].
  exact (content_excerpt_bounded env d _ d' H).
Defined.

(** C8. No record returned by [detect_all_changes] has the change type
    "deleted": the change type of every record is "added" or "modified". *)
Theorem change_type_added_or_modified env d changes d' :
  detect_all_changes env d = Ok (changes, d') ->
  Forall (fun c =>
            (change_type c = "added" \/ change_type c = "modified")
            /\ change_type c <> "deleted") changes.
Proof.
  apply detect_all_changes_Forall.
  - intros. simpl. split; [by right|done].
  - intros. simpl. destruct known; (split; [auto|done]).
Qed.

(** The default configuration over a [README.md] that changed since the
    saved state: two records, both "modified". *)
Lemma change_type_added_or_modified_witness :
  let env := Scenario.readme_env "hello world" in
  let d := Scenario.detector default_data_sources Scenario.readme_state in
  exists changes d',
    detect_all_changes env d = Ok (changes, d')
    /\ map change_type changes = ["modified"; "modified"]
    /\ Forall (fun c =>
                 (change_type c = "added" \/ change_type c = "modified")
                 /\ change_type c <> "deleted") changes.
Proof.
  intros env d.
  destruct (detect_all_changes_spec env d) as (d' & H & _).
  eexists _, d'. split; [exact H|]. split; [vm_compute; reflexivity|].
  exact (change_type_added_or_modified env d _ d' H).
Defined.

(** ** Failure of one source *)

Lemma detect_source_raise env d source e :
  detect_source env d source = Raise e ->
  String.eqb (type source) "github" = false
  /\ String.eqb (type source) "local_files" = true
  /\ glob_all env (default [] (cfg_paths (config source))) = Raise e.
Proof.
  unfold detect_source.
  destruct (String.eqb (type source) "github").
  { destruct (detect_git_changes_ok env (last_run_state d) source) as [c ->].
    discriminate. }
  destruct (String.eqb (type source) "local_files").
  { destruct (_detect_file_changes env (last_run_state d) source)
      as [[c st2]|e2] eqn:E; simpl; [discriminate|].
    intros [= ->]. split; [done|]. split; [done|].
    by apply (detect_file_changes_raise_iff env (last_run_state d)). }
  destruct (String.eqb (type source) "google_docs"); [discriminate|].
  destruct (String.eqb (type source) "slack"); discriminate.
Qed.

Lemma source_fails_no_changes env st source :
  source_fails env source -> adapter_changes env st source = [].
Proof.
  intros [[Ht [e He]]|[[Ht Hg]|(d & e & H)]]; unfold adapter_changes.
  - destruct (negb (enabled source)); [done|].
    rewrite Ht. simpl. unfold _detect_git_changes. by rewrite He.
  - destruct (negb (enabled source)); [done|]. rewrite Ht. simpl.
    pose proof (detect_file_changes_reconcile env st source) as H.
    rewrite Hg in H.
    destruct (_detect_file_changes env st source) as [[c st2]|e2];
      simpl in H; by simplify_eq.
  - apply detect_source_raise in H as (Hg & Hl & Hr).
    destruct (negb (enabled source)); [done|]. rewrite Hg, Hl.
    apply (detect_file_changes_raise_iff env st) in Hr. by rewrite Hr.
Qed.

(** C5. When one source of the configuration fails (its repository path
    cannot be opened, or its adapter raises), [detect_all_changes] still
    returns normally, the failing source adds no change, and the returned
    list is the one the other sources produce without it. *)
Theorem failing_source_isolated env pre source post st dc dc2 :
  source_fails env source ->
  exists changes d1 d2,
    detect_all_changes env
      {| data_sources := pre ++ source :: post;
         last_run_state := st; detected_changes := dc |} = Ok (changes, d1)
    /\ detect_all_changes env
         {| data_sources := pre ++ post;
            last_run_state := st; detected_changes := dc2 |} = Ok (changes, d2)
    /\ adapter_changes env st source = [].
Proof.
  intros Hf.
  pose proof (source_fails_no_changes env st source Hf) as Hnil.
  destruct (detect_all_changes_spec env
              {| data_sources := pre ++ source :: post;
                 last_run_state := st; detected_changes := dc |})
    as (d1 & H1 & _).
  destruct (detect_all_changes_spec env
              {| data_sources := pre ++ post;
                 last_run_state := st; detected_changes := dc2 |})
    as (d2 & H2 & _).
  simpl in *. eexists _, d1, d2. split; [exact H1|]. split; [|exact Hnil].
  rewrite H2. do 2 f_equal.
  rewrite !flat_map_app. simpl. by rewrite Hnil.
Qed.

(** A source with an absolute pattern, for which [glob] raises, placed
    before the documentation source: the run returns the two records of
    the documentation source. *)
Lemma failing_source_isolated_witness :
  let env := Scenario.absolute_env "hello" in
  let wiki := Scenario.local_files "Wiki" ["/srv/wiki/*.md"] in
  let docs := Scenario.local_files "Documentation Files" ["README.md"; "*.md"] in
  source_fails env wiki
  /\ exists changes d1 d2,
       detect_all_changes env
         (Scenario.detector ([] ++ wiki :: [docs]) empty_state)
       = Ok (changes, d1)
       /\ detect_all_changes env
            (Scenario.detector ([] ++ [docs]) empty_state) = Ok (changes, d2)
       /\ adapter_changes env empty_state wiki = [].
Proof.
  intros env wiki docs.
  assert (Hf : source_fails env wiki).
  { right. right.
    exists (Scenario.detector [] empty_state), NotImplementedError.
    vm_compute. reflexivity. }
  split; [exact Hf|].
  exact (failing_source_isolated env [] wiki [docs] empty_state [] [] Hf).
Defined.

(** ** The entry point *)

(** C9. When the state file exists and cannot be parsed, loading the run
    state raises; the error leaves [main] before any adapter is consulted
    (the outcome is the same for every environment), nothing is written to
    the state file or the reports, and the state is not replaced by the
    empty one. *)
Theorem malformed_state_aborts env w :
  state_file w = Some Malformed ->
  load_last_run_state w = Raise JSONDecodeError
  /\ fst (main env w) = Raise JSONDecodeError
  /\ state_file (snd (main env w)) = Some Malformed
  /\ consolidated (snd (main env w)) = consolidated w
  /\ forall env', main env' w = main env w.
Proof.
  intros H. unfold main, init, load_configuration, load_last_run_state.
  rewrite H. destruct (config_file w) as [[|c]|]; simpl; rewrite ?H; done.
Qed.

Lemma malformed_state_aborts_witness :
  let env := Scenario.readme_env "hello" in
  let w := Scenario.damaged_world in
  state_file w = Some Malformed
  /\ load_last_run_state w = Raise JSONDecodeError
  /\ fst (main env w) = Raise JSONDecodeError
  /\ state_file (snd (main env w)) = Some Malformed
  /\ consolidated (snd (main env w)) = consolidated w
  /\ forall env', main env' w = main env w.
Proof.
  intros env w. split; [reflexivity|].
  exact (malformed_state_aborts env w eq_refl).
Defined.

(** C10. When [detect_all_changes] returns the empty list, [main] returns
    [None] without saving: the state file is the one the run started
    with, and no report is written. *)
Theorem no_change_run_keeps_state env w detector w1 d' :
  init w = (Ok detector, w1) ->
  detect_all_changes env detector = Ok ([], d') ->
  main env w = (Ok None, w1)
  /\ state_file (snd (main env w)) = state_file w
  /\ consolidated (snd (main env w)) = consolidated w.
Proof.
  intros Hinit Hdet. unfold main. rewrite Hinit, Hdet. simpl.
  split; [done|].
  unfold init, load_configuration in Hinit.
  destruct (config_file w) as [[|c]|]; simpl in Hinit.
  - discriminate.
  - destruct (load_last_run_state w); simplify_eq. done.
  - destruct (load_last_run_state _); simplify_eq. done.
Qed.

(** The default configuration over an unchanged [README.md]. *)
Lemma no_change_run_keeps_state_witness :
  let env := Scenario.readme_env "hello" in
  let w := Scenario.later_world in
  exists detector d',
    init w = (Ok detector, w)
    /\ detect_all_changes env detector = Ok ([], d')
    /\ main env w = (Ok None, w)
    /\ state_file (snd (main env w)) = state_file w
    /\ consolidated (snd (main env w)) = consolidated w.
Proof.
  intros env w.
  exists (Scenario.detector default_data_sources Scenario.readme_state).
  destruct (detect_all_changes_spec env
              (Scenario.detector default_data_sources Scenario.readme_state))
    as (d' & H & _).
  exists d'.
  assert (Hd : detect_all_changes env
                 (Scenario.detector default_data_sources Scenario.readme_state)
               = Ok ([], d')).
  { rewrite H. vm_compute. reflexivity. }
  split; [reflexivity|]. split; [exact Hd|].
  exact (no_change_run_keeps_state env w _ w d' eq_refl Hd).
Defined.

(** ** Classification *)

Lemma adapter_changes_local_files env st source :
  enabled source = true ->
  type source = "local_files" ->
  adapter_changes env st source =
  match glob_all env (default [] (cfg_paths (config source))) with
  | Ok paths =>
      flat_map (reconcile_file env source (default ∅ (file_checksums st)))
        paths
  | Raise _ => []
  end.
Proof.
  intros Hen Ht. unfold adapter_changes. rewrite Hen, Ht. simpl.
  pose proof (detect_file_changes_reconcile env st source) as H.
  destruct (_detect_file_changes env st source) as [[c st2]|e],
    (glob_all env _) as [paths|e2]; simpl in H; by simplify_eq.
Qed.

Lemma adapter_changes_github env st source :
  enabled source = true ->
  type source = "github" ->
  Forall (fun c => source_type c = "github_commit"
                   /\ change_type c = "modified")
    (adapter_changes env st source).
Proof.
  intros Hen Ht. unfold adapter_changes. rewrite Hen, Ht. simpl.
  destruct (_detect_git_changes env st source) as [c|e] eqn:E; [|done].
  revert E. apply detect_git_changes_Forall. by intros.
Qed.

(** C1, as amended. The list returned by a run is the concatenation of
    what each source adds. For an enabled filesystem source this is what
    the state machine of section 4.4 emits over the enumerated paths,
    looked up in the stored [file_checksums]: no stored fingerprint gives
    "added", an equal fingerprint gives no record, a different one gives
    "modified". An enabled git source does no lookup: every record it adds
    is "modified". *)
Theorem classification_by_source_kind env d :
  exists d',
    detect_all_changes env d =
      Ok (flat_map (adapter_changes env (last_run_state d)) (data_sources d),
          d')
    /\ forall source,
         enabled source = true ->
         (type source = "local_files" ->
          adapter_changes env (last_run_state d) source =
          match glob_all env (default [] (cfg_paths (config source))) with
          | Ok paths =>
              flat_map
                (reconcile_file env source
                   (default ∅ (file_checksums (last_run_state d)))) paths
          | Raise _ => []
          end)
         /\ (type source = "github" ->
             Forall (fun c => change_type c = "modified")
               (adapter_changes env (last_run_state d) source)).
Proof.
  destruct (detect_all_changes_spec env d) as (d' & H & _).
  exists d'. split; [exact H|]. intros source Hen. split; intros Ht.
  - by apply adapter_changes_local_files.
  - eapply Forall_impl; [by apply adapter_changes_github|].
    by intros c [_ Hc].
Qed.

(** The documentation source over a changed [README.md], and the
    repository source over one new commit. *)
Lemma classification_by_source_kind_witness :
  let docs := Scenario.local_files "Documentation Files" ["README.md"] in
  let repo := Scenario.github "Current Repository" "." ["*.py"] in
  map change_type
    (adapter_changes (Scenario.readme_env "hello world")
       Scenario.readme_state docs) = ["modified"]
  /\ map change_type
       (adapter_changes (Scenario.readme_env "hello")
          Scenario.readme_state docs) = []
  /\ map change_type
       (adapter_changes (Scenario.readme_env "hello") empty_state docs)
     = ["added"]
  /\ Forall (fun c => change_type c = "modified")
       (adapter_changes Scenario.repo_env empty_state repo).
Proof.
  intros docs repo.
  destruct (classification_by_source_kind (Scenario.readme_env "hello world")
              (Scenario.detector [docs] Scenario.readme_state))
    as (d1 & _ & H1).
  destruct (classification_by_source_kind (Scenario.readme_env "hello")
              (Scenario.detector [docs] Scenario.readme_state))
    as (d2 & _ & H2).
  destruct (classification_by_source_kind (Scenario.readme_env "hello")
              (Scenario.detector [docs] empty_state))
    as (d3 & _ & H3).
  destruct (classification_by_source_kind Scenario.repo_env
              (Scenario.detector [repo] empty_state))
    as (d4 & _ & H4).
  destruct (H1 docs eq_refl) as [E1 _].
  destruct (H2 docs eq_refl) as [E2 _].
  destruct (H3 docs eq_refl) as [E3 _].
  destruct (H4 repo eq_refl) as [_ E4].
  simpl last_run_state in *.
  rewrite (E1 eq_refl), (E2 eq_refl), (E3 eq_refl).
  split; [vm_compute; reflexivity|].
  split; [vm_compute; reflexivity|].
  split; [vm_compute; reflexivity|].
  exact (E4 eq_refl).
Defined.

(** C1 fails for the git adapter: on a first run (nothing stored, neither
    a checksum for [app.py] nor a commit for the source) the file touched
    by the only commit is reported as "modified", not "added". *)
Lemma git_unseen_file_classified_modified :
  let repo := Scenario.github "Current Repository" "." ["*.py"] in
  default ∅ (file_checksums empty_state) !! "app.py" = None
  /\ default ∅ (git_commit_hashes empty_state) !! "Current Repository" = None
  /\ map (fun c => (source_type c, file_path_of c, change_type c))
       <$> (fst <$> detect_all_changes Scenario.repo_env
                      (Scenario.detector [repo] empty_state))
     = Ok [("github_commit", Some "app.py", "modified")].
Proof. vm_compute. repeat split. Qed.

(** ** Counting the records about one file *)

Lemma records_for_app f l1 l2 :
  records_for f (l1 ++ l2) = records_for f l1 ++ records_for f l2.
Proof. apply List.filter_app. Qed.

Lemma records_for_flat_map {A} f (g : A -> list ChangeDetection) l :
  records_for f (flat_map g l) = flat_map (fun x => records_for f (g x)) l.
Proof.
  induction l as [|x l IH]; simpl; [done|].
  by rewrite records_for_app, IH.
Qed.

Lemma records_for_reconcile env source stored f p :
  records_for f (reconcile_file env source stored p) =
  if String.eqb p f then reconcile_file env source stored p else [].
Proof.
  unfold reconcile_file, records_for.
  destruct (is_file env p); [|by destruct (String.eqb p f)].
  destruct (read_text env p) as [text|e]; [|by destruct (String.eqb p f)].
  destruct (classify _ _); simpl;
    unfold is_record_for, is_file_record, file_path_of; simpl;
    by destruct (String.eqb p f).
Qed.

Lemma reconcile_file_unreadable env source stored f :
  readable env f = false -> reconcile_file env source stored f = [].
Proof.
  unfold readable, reconcile_file.
  destruct (is_file env f); [|done].
  by destruct (read_text env f).
Qed.

Lemma records_for_paths env source stored f paths :
  records_for f (flat_map (reconcile_file env source stored) paths) =
  flat_map (fun _ => reconcile_file env source stored f)
    (List.filter (String.eqb f) (List.filter (readable env) paths)).
Proof.
  induction paths as [|p paths IH]; simpl; [done|].
  rewrite records_for_app, records_for_reconcile, IH.
  destruct (String.eqb p f) eqn:E.
  - apply String.eqb_eq in E as ->.
    destruct (readable env f) eqn:R; simpl.
    + by rewrite String.eqb_refl.
    + by rewrite reconcile_file_unreadable.
  - destruct (readable env p); simpl; [|done].
    by rewrite String.eqb_sym, E.
Qed.

Lemma records_for_git env st source f changes :
  _detect_git_changes env st source = Ok changes -> records_for f changes = [].
Proof.
  intros H.
  assert (Hall : Forall (fun c => is_record_for f c = false) changes).
  { revert H. apply detect_git_changes_Forall. by intros. }
  clear H. unfold records_for.
  induction Hall as [|c l Hc _ IH]; simpl; [done|]. by rewrite Hc.
Qed.

(** The records about [f] that one source adds: one reconciliation of [f]
    per enumeration of [f] by the source. *)
Lemma records_for_source env st source f :
  records_for f (adapter_changes env st source) =
  flat_map
    (fun _ => reconcile_file env source (default ∅ (file_checksums st)) f)
    (List.filter (String.eqb f) (source_files env source)).
Proof.
  unfold source_files. destruct (enabled source) eqn:Hen; simpl.
  - destruct (String.eqb (type source) "local_files") eqn:Ht.
    + apply String.eqb_eq in Ht.
      rewrite adapter_changes_local_files by done.
      destruct (glob_all env _) as [paths|e]; [|done].
      apply records_for_paths.
    + unfold adapter_changes. rewrite Hen, Ht. simpl.
      destruct (String.eqb (type source) "github"); [|done].
      destruct (_detect_git_changes env st source) as [c|e] eqn:E; [|done].
      by eapply records_for_git.
  - by rewrite adapter_changes_disabled.
Qed.

Lemma records_for_run env st sources f :
  records_for f (flat_map (adapter_changes env st) sources) =
  flat_map
    (fun source =>
       flat_map
         (fun _ => reconcile_file env source (default ∅ (file_checksums st)) f)
         (List.filter (String.eqb f) (source_files env source)))
    sources.
Proof.
  rewrite records_for_flat_map. apply flat_map_ext. intros source.
  apply records_for_source.
Qed.

Lemma enumerations_cons env source sources f :
  enumerations env (source :: sources) f =
  length (List.filter (String.eqb f) (source_files env source))
  + enumerations env sources f.
Proof.
  unfold enumerations, enumerated. simpl.
  by rewrite List.filter_app, length_app.
Qed.

(** When every reconciliation of [f] emits [k] records that satisfy [P],
    a run holds [k] such records per enumeration of [f]. *)
Lemma records_for_run_count env st sources f k (P : ChangeDetection -> Prop) :
  (forall source,
     length (reconcile_file env source (default ∅ (file_checksums st)) f) = k
     /\ Forall P
          (reconcile_file env source (default ∅ (file_checksums st)) f)) ->
  length (records_for f (flat_map (adapter_changes env st) sources))
  = k * enumerations env sources f
  /\ Forall P (records_for f (flat_map (adapter_changes env st) sources)).
Proof.
  intros H. rewrite records_for_run.
  induction sources as [|source sources [IHl IHP]]; simpl.
  - unfold enumerations. simpl. split; [lia|done].
  - rewrite length_app, IHl, enumerations_cons.
    destruct (H source) as [Hk HP].
    assert (Hs : forall (l : list string),
      length (flat_map (fun _ => reconcile_file env source
                          (default ∅ (file_checksums st)) f) l)
      = k * length l
      /\ Forall P (flat_map (fun _ => reconcile_file env source
                          (default ∅ (file_checksums st)) f) l)).
    { induction l as [|x l [IH1 IH2]]; simpl; [split; [lia|done]|].
      rewrite length_app, IH1, Hk. split; [lia|].
      apply Forall_app. by split. }
    destruct (Hs (List.filter (String.eqb f) (source_files env source)))
      as [-> HP2].
    split; [lia|]. apply Forall_app. by split.
Qed.

Lemma enumerations_unreadable env sources f :
  readable env f = false -> enumerations env sources f = 0.
Proof.
  intros R. induction sources as [|source sources IH].
  - done.
  - rewrite enumerations_cons, IH.
    assert (List.filter (String.eqb f) (source_files env source) = [])
      as ->; [|done].
    unfold source_files.
    destruct (enabled source && String.eqb (type source) "local_files");
      [|done].
    destruct (glob_all env _) as [paths|e]; [|done].
    induction paths as [|p paths IHp]; simpl; [done|].
    destruct (readable env p) eqn:Rp; simpl; [|done].
    destruct (String.eqb f p) eqn:E; [|done].
    apply String.eqb_eq in E. congruence.
Qed.

(** ** The checksums written by [save_current_state] *)

Section SavedChecksums.

Variable env : Env.
Variable f text : string.
Hypothesis f_is_file : is_file env f = true.
Hypothesis f_text : read_text env f = Ok text.

Lemma checksum_step_keeps (m : gmap string string) p :
  m !! f = Some (md5_hex text) ->
  checksum_step env m p !! f = Some (md5_hex text).
Proof.
  intros H. unfold checksum_step.
  destruct (is_file env p); [|done].
  destruct (read_text env p) as [t|e] eqn:E; [|done].
  destruct (decide (p = f)) as [->|Hne].
  - rewrite f_text in E. injection E as <-. apply lookup_insert_eq.
  - by rewrite lookup_insert_ne.
Qed.

Lemma checksum_step_adds (m : gmap string string) :
  checksum_step env m f !! f = Some (md5_hex text).
Proof.
  unfold checksum_step. rewrite f_is_file, f_text. apply lookup_insert_eq.
Qed.

Lemma fold_checksum_step_keeps paths (m : gmap string string) :
  m !! f = Some (md5_hex text) ->
  fold_left (checksum_step env) paths m !! f = Some (md5_hex text).
Proof.
  revert m. induction paths as [|p paths IH]; intros m H; simpl; [done|].
  by apply IH, checksum_step_keeps.
Qed.

Lemma fold_checksum_step_covers paths (m : gmap string string) :
  In f paths ->
  fold_left (checksum_step env) paths m !! f = Some (md5_hex text).
Proof.
  revert m. induction paths as [|p paths IH]; intros m Hin; simpl.
  - destruct Hin.
  - destruct Hin as [->|Hin].
    + apply fold_checksum_step_keeps, checksum_step_adds.
    + by apply IH.
Qed.

Lemma checksum_patterns_loop_glob_all patterns (m : gmap string string) :
  checksum_patterns_loop env patterns m =
  paths ← glob_all env patterns; Ok (fold_left (checksum_step env) paths m).
Proof.
  revert m. induction patterns as [|p patterns IH]; intros m; simpl; [done|].
  destruct (glob env p) as [paths|e]; simpl; [|done].
  rewrite IH. destruct (glob_all env patterns) as [more|e]; simpl; [|done].
  by rewrite fold_left_app.
Qed.

Lemma checksum_sources_loop_keeps sources (m m' : gmap string string) :
  checksum_sources_loop env sources m = Ok m' ->
  m !! f = Some (md5_hex text) -> m' !! f = Some (md5_hex text).
Proof.
  revert m. induction sources as [|s sources IH]; intros m; simpl.
  - by intros [= <-].
  - destruct (String.eqb (type s) "local_files"); [|by apply IH].
    rewrite checksum_patterns_loop_glob_all.
    destruct (glob_all env _) as [paths|e]; simpl; [|done].
    intros H Hm. eapply IH; [exact H|]. by apply fold_checksum_step_keeps.
Qed.

Lemma checksum_sources_loop_covers sources (m m' : gmap string string)
    source paths :
  checksum_sources_loop env sources m = Ok m' ->
  In source sources ->
  type source = "local_files" ->
  glob_all env (default [] (cfg_paths (config source))) = Ok paths ->
  In f paths ->
  m' !! f = Some (md5_hex text).
Proof.
  revert m. induction sources as [|s sources IH]; intros m; simpl.
  - by intros _ [].
  - intros H [->|Hin] Ht Hg Hf.
    + rewrite Ht in H. simpl in H.
      rewrite checksum_patterns_loop_glob_all, Hg in H. simpl in H.
      eapply checksum_sources_loop_keeps; [exact H|].
      by apply fold_checksum_step_covers.
    + destruct (String.eqb (type s) "local_files").
      * rewrite checksum_patterns_loop_glob_all in H.
        destruct (glob_all env (default [] (cfg_paths (config s))))
          as [ps|e]; simpl in H; [|done].
        by eapply IH.
      * by eapply IH.
Qed.

End SavedChecksums.

Lemma readable_inv env f :
  readable env f = true ->
  is_file env f = true /\ exists text, read_text env f = Ok text.
Proof.
  unfold readable. destruct (is_file env f); [|done].
  destruct (read_text env f) as [text|e]; [|done]. eauto.
Qed.

(** A path that is enumerated belongs to the enumeration of an enabled
    filesystem source none of whose patterns makes [glob] raise. *)
Lemma enumerated_inv env sources f :
  1 <= enumerations env sources f ->
  exists source paths,
    In source sources
    /\ enabled source = true
    /\ type source = "local_files"
    /\ glob_all env (default [] (cfg_paths (config source))) = Ok paths
    /\ In f paths
    /\ readable env f = true.
Proof.
  induction sources as [|s sources IH].
  - unfold enumerations. simpl. lia.
  - rewrite enumerations_cons. intros H.
    destruct (List.filter (String.eqb f) (source_files env s)) as [|x l] eqn:E.
    + destruct IH as (source & paths & Hin & Hrest); [simpl in H; lia|].
      exists source, paths. split; [by right|done].
    + assert (Hx : In x (List.filter (String.eqb f) (source_files env s))).
      { rewrite E. by left. }
      apply List.filter_In in Hx as [Hx Hfx].
      apply String.eqb_eq in Hfx as <-.
      unfold source_files in Hx.
      destruct (enabled s) eqn:Hen; [|done].
      destruct (String.eqb (type s) "local_files") eqn:Ht; [|done].
      simpl in Hx.
      destruct (glob_all env _) as [paths|e] eqn:Hg; [|done].
      apply List.filter_In in Hx as [Hp Hr].
      apply String.eqb_eq in Ht.
      exists s, paths. split; [by left|done].
Qed.

(** ** First run and modification *)

(** C3, as amended. With the empty state of a first run, the run returns
    normally and, for every path, the filesystem records about it are all
    "added" and there is one of them per enumeration of the path: one for
    each pattern of each enabled filesystem source that yields it as a
    readable regular file (sources with a pattern for which [glob] raises
    yield nothing). A file that two patterns or two sources yield is
    recorded more than once. *)
Theorem first_run_added_per_enumeration env sources dc :
  exists changes d',
    detect_all_changes env
      {| data_sources := sources; last_run_state := empty_state;
         detected_changes := dc |} = Ok (changes, d')
    /\ forall f,
         length (records_for f changes) = enumerations env sources f
         /\ Forall (fun c => change_type c = "added") (records_for f changes).
Proof.
  destruct (detect_all_changes_spec env
              {| data_sources := sources; last_run_state := empty_state;
                 detected_changes := dc |}) as (d' & H & _).
  simpl in H. eexists _, d'. split; [exact H|]. intros f.
  destruct (readable env f) eqn:R.
  - destruct (readable_inv env f R) as [Hf [text Ht]].
    destruct (records_for_run_count env empty_state sources f 1
                (fun c => change_type c = "added")) as [Hl HP].
    { intros source. unfold reconcile_file. rewrite Hf, Ht. simpl.
      rewrite lookup_empty. simpl. split; [done|]. by repeat constructor. }
    split; [lia|done].
  - destruct (records_for_run_count env empty_state sources f 0
                (fun c => change_type c = "added")) as [Hl HP].
    { intros source. by rewrite reconcile_file_unreadable. }
    rewrite enumerations_unreadable by done. split; [lia|done].
Qed.

(** C3 fails on the default configuration: its documentation source lists
    both [README.md] and [*.md], so on a first run the single file
    [README.md] is recorded as "added" twice. *)
Lemma first_run_readme_added_twice :
  let env := Scenario.readme_env "hello" in
  glob env "README.md" = Ok ["README.md"]
  /\ glob env "*.md" = Ok ["README.md"]
  /\ map change_type
       <$> (records_for "README.md"
              <$> (fst <$> detect_all_changes env
                             (Scenario.detector default_data_sources
                                empty_state)))
     = Ok ["added"; "added"].
Proof. vm_compute. repeat split. Qed.

(** C4, as amended. A file stored with fingerprint [F1] whose text now
    hashes to a different fingerprint is recorded as "modified", with the
    new fingerprint, once per enumeration of the file by a pattern of an
    enabled filesystem source (exactly once when a single pattern of a
    single source yields it); and when the file is enumerated and
    [save_current_state] succeeds, the state file maps it to the new
    fingerprint. *)
Theorem modified_file_per_enumeration env sources st dc f F1 text changes d' :
  default ∅ (file_checksums st) !! f = Some F1 ->
  is_file env f = true ->
  read_text env f = Ok text ->
  md5_hex text <> F1 ->
  detect_all_changes env
    {| data_sources := sources; last_run_state := st;
       detected_changes := dc |} = Ok (changes, d') ->
  length (records_for f changes) = enumerations env sources f
  /\ Forall (fun c => change_type c = "modified"
                      /\ checksum_of c = Some (md5_hex text))
       (records_for f changes)
  /\ forall w w',
       1 <= enumerations env sources f ->
       save_current_state env d' w = (Ok tt, w') ->
       exists st',
         state_file w' = Some (Json st')
         /\ default ∅ (file_checksums st') !! f = Some (md5_hex text).
Proof.
  intros Hs Hf Ht Hne Hrun.
  destruct (detect_all_changes_spec env
              {| data_sources := sources; last_run_state := st;
                 detected_changes := dc |}) as (d1 & H & Hds & _).
  rewrite H in Hrun. simpl in *. injection Hrun as <- <-.
  destruct (records_for_run_count env st sources f 1
              (fun c => change_type c = "modified"
                        /\ checksum_of c = Some (md5_hex text))) as [Hl HP].
  { intros source. unfold reconcile_file. rewrite Hf, Ht, Hs. simpl.
    destruct (String.eqb (md5_hex text) F1) eqn:E.
    - apply String.eqb_eq in E. contradiction.
    - split; [done|]. by repeat constructor. }
  split; [lia|]. split; [done|].
  intros w w' Hen Hsave.
  unfold save_current_state, current_state,
    _calculate_current_file_checksums in Hsave.
  rewrite Hds in Hsave.
  destruct (checksum_sources_loop env sources ∅) as [m|e] eqn:Hm;
    simpl in Hsave; [|discriminate].
  injection Hsave as <-. eexists. split; [done|]. simpl.
  destruct (enumerated_inv env sources f Hen)
    as (source & paths & Hin & _ & Htype & Hg & Hp & _).
  by eapply checksum_sources_loop_covers.
Qed.

(** [README.md], saved with the fingerprint of "hello", now reads
    "hello world"; a single source lists it once. *)
Lemma modified_file_per_enumeration_witness :
  let env := Scenario.readme_env "hello world" in
  let docs := Scenario.local_files "Documentation Files" ["README.md"] in
  let d := Scenario.detector [docs] Scenario.readme_state in
  exists changes d',
    detect_all_changes env d = Ok (changes, d')
    /\ enumerations env [docs] "README.md" = 1
    /\ length (records_for "README.md" changes) = 1
    /\ Forall (fun c => change_type c = "modified"
                        /\ checksum_of c = Some (md5_hex "hello world"))
         (records_for "README.md" changes)
    /\ forall w w',
         save_current_state env d' w = (Ok tt, w') ->
         exists st',
           state_file w' = Some (Json st')
           /\ default ∅ (file_checksums st') !! "README.md"
              = Some (md5_hex "hello world").
Proof.
  intros env docs d.
  destruct (detect_all_changes_spec env d) as (d' & H & _).
  eexists _, d'. split; [exact H|].
  assert (Hstored : default ∅ (file_checksums Scenario.readme_state)
                      !! "README.md"
                    = Some "5d41402abc4b2a76b9719d911017c592").
  { vm_compute. reflexivity. }
  assert (Hne : md5_hex "hello world" <> "5d41402abc4b2a76b9719d911017c592").
  { vm_compute. discriminate. }
  destruct (modified_file_per_enumeration env [docs] Scenario.readme_state []
              "README.md" _ "hello world" _ d' Hstored eq_refl eq_refl Hne H)
    as (Hl & HP & Hsave).
  assert (Hen : enumerations env [docs] "README.md" = 1).
  { vm_compute. reflexivity. }
  split; [exact Hen|]. split; [by rewrite Hl|]. split; [exact HP|].
  intros w w'. apply Hsave. rewrite Hen. lia.
Defined.

(** C4 fails on the default configuration: [README.md] was saved with the
    fingerprint of "hello" and now reads "hello world"; the run returns two
    "modified" records for it, not one. *)
Lemma modified_readme_recorded_twice :
  let env := Scenario.readme_env "hello world" in
  default ∅ (file_checksums Scenario.readme_state) !! "README.md"
  = Some (md5_hex "hello")
  /\ md5_hex "hello world" <> md5_hex "hello"
  /\ map change_type
       <$> (records_for "README.md"
              <$> (fst <$> detect_all_changes env
                             (Scenario.detector default_data_sources
                                Scenario.readme_state)))
     = Ok ["modified"; "modified"].
Proof.
  split; [vm_compute; reflexivity|].
  split; [vm_compute; discriminate|].
  vm_compute. reflexivity.
Qed.

(** ** Evidence identifiers *)

(** The identifier of a filesystem record depends on the source name, the
    checksum and the last component of the path only. *)
Lemma file_evidence_id_deterministic env1 env2 s1 s2 p1 p2 t1 t2 h k1 k2 :
  name s1 = name s2 ->
  PyStr.path_name p1 = PyStr.path_name p2 ->
  evidence_id (file_change env1 s1 p1 t1 h k1)
  = evidence_id (file_change env2 s2 p2 t2 h k2).
Proof. intros Hn Hp. simpl. by rewrite Hn, Hp. Qed.

(** The identifier of a git record depends on the source name, the commit
    and the file path only. *)
Lemma git_evidence_id_deterministic s1 s2 c1 c2 p t1 t2 :
  name s1 = name s2 ->
  hexsha c1 = hexsha c2 ->
  evidence_id (git_change s1 c1 p t1) = evidence_id (git_change s2 c2 p t2).
Proof. intros Hn Hc. simpl. by rewrite Hn, Hc. Qed.

(** C6. The identifier is not unique within a run: two files with the same
    name and the same text in different directories, [a/x.md] and
    [b/x.md], are two records of one source with one [evidence_id]. *)
Theorem evidence_id_shared_by_two_files :
  let docs := Scenario.local_files "Docs" ["*/x.md"] in
  map (fun c => (file_path_of c, evidence_id c))
    <$> (fst <$> detect_all_changes Scenario.twin_env
                   (Scenario.detector [docs] empty_state))
  = Ok [(Some "a/x.md", "file_Docs_5d41402abc4b2a76b9719d911017c592_x.md");
        (Some "b/x.md", "file_Docs_5d41402abc4b2a76b9719d911017c592_x.md")].
Proof. vm_compute. reflexivity. Qed.

(** ** The second of two runs *)

Lemma git_head_step_other env (m : gmap string string) s n :
  (String.eqb (type s) "github" = true -> name s <> n) ->
  git_head_step env m s !! n = m !! n.
Proof.
  intros H. unfold git_head_step.
  destruct (String.eqb (type s) "github"); [|done].
  destruct (open_repo env _) as [repo|e]; [|done].
  destruct (head_commit repo) as [h|e]; [|done].
  rewrite lookup_insert_ne; [done|]. by apply H.
Qed.

Lemma git_heads_other env sources (m : gmap string string) n :
  ~ In n (github_names sources) ->
  fold_left (git_head_step env) sources m !! n = m !! n.
Proof.
  revert m. induction sources as [|s sources IH]; intros m Hn; simpl; [done|].
  unfold github_names in Hn. simpl in Hn.
  destruct (String.eqb (type s) "github") eqn:Ht.
  - simpl in Hn. rewrite IH.
    + apply git_head_step_other. intros _ Heq. apply Hn. by left.
    + intros Hin. apply Hn. by right.
  - rewrite IH by done. apply git_head_step_other. by rewrite Ht.
Qed.

(** With distinct names, the saved revision of a git source is the HEAD of
    its own repository. *)
Lemma git_heads_lookup env sources (m : gmap string string) source repo :
  List.NoDup (github_names sources) ->
  In source sources ->
  type source = "github" ->
  open_repo env (default "." (cfg_path (config source))) = Ok repo ->
  fold_left (git_head_step env) sources m !! name source =
  match head_commit repo with
  | Ok h => Some h
  | Raise _ => m !! name source
  end.
Proof.
  revert m. induction sources as [|s sources IH]; intros m Hnd Hin Ht Ho.
  - destruct Hin.
  - simpl. unfold github_names in Hnd. simpl in Hnd.
    destruct Hin as [->|Hin].
    + rewrite Ht in Hnd. simpl in Hnd. apply List.NoDup_cons_iff in Hnd as [Hn _].
      rewrite git_heads_other by done.
      unfold git_head_step. rewrite Ht. simpl. rewrite Ho.
      destruct (head_commit repo) as [h|e]; [|done].
      apply lookup_insert_eq.
    + destruct (String.eqb (type s) "github") eqn:Hts.
      * simpl in Hnd. apply List.NoDup_cons_iff in Hnd as [Hn Hnd].
        rewrite IH by done.
        destruct (head_commit repo) as [h|e]; [done|].
        apply git_head_step_other. intros _ Heq. apply Hn.
        rewrite Heq. apply in_map.
        apply List.filter_In. split; [done|]. by rewrite Ht.
      * rewrite IH by done.
        destruct (head_commit repo) as [h|e]; [done|].
        apply git_head_step_other. by rewrite Hts.
Qed.

Lemma no_commits_loop repo source r :
  no_commits r = true ->
  match r with
  | Ok commits => fst (git_commits_loop repo source commits [])
  | Raise _ => []
  end = [].
Proof. destruct r as [[|c l]|e]; done. Qed.

(** A settled repository adds nothing once its HEAD has been saved. *)
Lemma detect_git_changes_settled env sources st source :
  git_settled env sources ->
  In source sources ->
  enabled source = true ->
  type source = "github" ->
  git_commit_hashes st = Some (_get_current_git_commits env sources) ->
  _detect_git_changes env st source = Ok [].
Proof.
  intros [Hnd Hset] Hin Hen Ht Hst. unfold _detect_git_changes.
  destruct (open_repo env _) as [repo|e] eqn:Ho; [|done].
  rewrite Hst. simpl. unfold _get_current_git_commits.
  rewrite (git_heads_lookup env sources ∅ source repo Hnd Hin Ht Ho).
  specialize (Hset source repo Hin Hen Ht Ho). unfold repo_settled in Hset.
  destruct (head_commit repo) as [h|e].
  - destruct Hset as [Hh Hno].
    destruct (String.eqb h "") eqn:E; [by apply String.eqb_eq in E|].
    pose proof (no_commits_loop repo source _ Hno) as H.
    destruct (iter_commits_rev repo _) as [commits|e]; [by rewrite H|done].
  - rewrite lookup_empty.
    pose proof (no_commits_loop repo source _ Hset) as H.
    destruct (iter_commits_since repo) as [commits|e2]; [by rewrite H|done].
Qed.

(** A file whose saved checksum is the checksum of its text is
    unchanged. *)
Lemma reconcile_file_saved env source (stored : gmap string string) p :
  (forall text,
     is_file env p = true -> read_text env p = Ok text ->
     stored !! p = Some (md5_hex text)) ->
  reconcile_file env source stored p = [].
Proof.
  intros H. unfold reconcile_file.
  destruct (is_file env p) eqn:Hf; [|done].
  destruct (read_text env p) as [text|e] eqn:Ht; [|done].
  rewrite (H text) by done. simpl. by rewrite String.eqb_refl.
Qed.

(** After the checksums have been saved, a filesystem source adds
    nothing. *)
Lemma local_files_saved env sources st m source :
  checksum_sources_loop env sources ∅ = Ok m ->
  file_checksums st = Some m ->
  In source sources ->
  enabled source = true ->
  type source = "local_files" ->
  adapter_changes env st source = [].
Proof.
  intros Hm Hfc Hin Hen Ht.
  rewrite adapter_changes_local_files by done.
  destruct (glob_all env _) as [paths|e] eqn:Hg; [|done].
  rewrite Hfc. simpl.
  assert (Hall : forall p, In p paths ->
            reconcile_file env source m p = []).
  { intros p Hp. apply reconcile_file_saved. intros text Hf Hr.
    by eapply checksum_sources_loop_covers. }
  clear Hg. induction paths as [|p paths IH]; simpl; [done|].
  rewrite Hall by (by left). apply IH. intros q Hq. apply Hall. by right.
Qed.

(** Whatever the repositories do, no source adds a filesystem record. *)
Lemma adapter_changes_saved_files env sources st m source :
  checksum_sources_loop env sources ∅ = Ok m ->
  file_checksums st = Some m ->
  In source sources ->
  List.filter is_file_record (adapter_changes env st source) = [].
Proof.
  intros Hm Hfc Hin.
  destruct (enabled source) eqn:Hen;
    [|by rewrite adapter_changes_disabled].
  destruct (String.eqb (type source) "local_files") eqn:Ht.
  - apply String.eqb_eq in Ht.
    by rewrite (local_files_saved env sources st m source).
  - unfold adapter_changes. rewrite Hen, Ht. simpl.
    destruct (String.eqb (type source) "github"); [|done].
    destruct (_detect_git_changes env st source) as [c|e] eqn:E; [|done].
    assert (Hall : Forall (fun c => is_file_record c = false) c).
    { revert E. apply detect_git_changes_Forall. by intros. }
    clear E. induction Hall as [|x l Hx _ IH]; simpl; [done|]. by rewrite Hx.
Qed.

(** With settled repositories, no source adds anything. *)
Lemma adapter_changes_saved env sources st m source :
  git_settled env sources ->
  checksum_sources_loop env sources ∅ = Ok m ->
  file_checksums st = Some m ->
  git_commit_hashes st = Some (_get_current_git_commits env sources) ->
  In source sources ->
  adapter_changes env st source = [].
Proof.
  intros Hgit Hm Hfc Hgc Hin.
  destruct (enabled source) eqn:Hen;
    [|by apply adapter_changes_disabled].
  destruct (String.eqb (type source) "local_files") eqn:Ht.
  - apply String.eqb_eq in Ht.
    by apply (local_files_saved env sources st m source).
  - unfold adapter_changes. rewrite Hen, Ht. simpl.
    destruct (String.eqb (type source) "github") eqn:Htg; [|done].
    apply String.eqb_eq in Htg.
    by rewrite (detect_git_changes_settled env sources st source).
Qed.

Lemma init_inv w d w1 :
  init w = (Ok d, w1) ->
  exists c,
    config_file w1 = Some (Json c)
    /\ data_sources d = default [] c
    /\ state_file w1 = state_file w.
Proof.
  unfold init, load_configuration.
  destruct (config_file w) as [[|c]|] eqn:Hc; simpl.
  - discriminate.
  - destruct (load_last_run_state w); intros [= <- <-]. by exists c.
  - destruct (load_last_run_state _); intros [= <- <-]. simpl.
    by exists (Some default_data_sources).
Qed.

Lemma flat_map_all_nil {A B} (g : A -> list B) l :
  (forall x, In x l -> g x = []) -> flat_map g l = [].
Proof.
  induction l as [|x l IH]; intros H; simpl; [done|].
  rewrite H by (by left). apply IH. intros y Hy. apply H. by right.
Qed.

Lemma filter_flat_map_all_nil {A B} (p : B -> bool) (g : A -> list B) l :
  (forall x, In x l -> List.filter p (g x) = []) ->
  List.filter p (flat_map g l) = [].
Proof.
  induction l as [|x l IH]; intros H; simpl; [done|].
  rewrite List.filter_app, H by (by left). apply IH.
  intros y Hy. apply H. by right.
Qed.

(** C2. A run is followed by [save_current_state], and a second run starts
    from the saved state over the same snapshot: the second run returns no
    filesystem record. When the repositories of the git sources did not
    move either (distinct source names, settled repositories), the second
    run returns the empty list. *)
Theorem second_run_emits_nothing env w d1 w1 changes1 d1' wa w2 :
  init w = (Ok d1, w1) ->
  detect_all_changes env d1 = Ok (changes1, d1') ->
  config_file wa = config_file w1 ->
  save_current_state env d1' wa = (Ok tt, w2) ->
  exists d2 changes2 d2',
    init w2 = (Ok d2, w2)
    /\ data_sources d2 = data_sources d1
    /\ detect_all_changes env d2 = Ok (changes2, d2')
    /\ List.filter is_file_record changes2 = []
    /\ (git_settled env (data_sources d1) -> changes2 = []).
Proof.
  intros Hinit Hrun Hcfg Hsave.
  destruct (init_inv w d1 w1 Hinit) as (c & Hc & Hds & _).
  destruct (detect_all_changes_spec env d1) as (dx & Hx & Hdsx & _).
  rewrite Hx in Hrun. injection Hrun as _ <-.
  unfold save_current_state, current_state,
    _calculate_current_file_checksums in Hsave.
  rewrite Hdsx in Hsave.
  destruct (checksum_sources_loop env (data_sources d1) ∅) as [m|e] eqn:Hm;
    simpl in Hsave; [|discriminate].
  injection Hsave as <-.
  set (st1 := {| last_run_timestamp := Some (now_isoformat env);
                 file_checksums := Some m;
                 git_commit_hashes :=
                   Some (_get_current_git_commits env (data_sources d1));
                 processed_changes := Some (map evidence_id (detected_changes dx));
                 source_checksums := ∅ |}).
  set (d2 := {| data_sources := data_sources d1; last_run_state := st1;
                detected_changes := [] |}).
  destruct (detect_all_changes_spec env d2) as (d2' & H2 & _).
  eexists d2, _, d2'. split; [|split; [done|split; [exact H2|split]]].
  - unfold init, load_configuration, write_state. simpl.
    rewrite Hcfg, Hc. simpl. unfold d2. by rewrite Hds.
  - simpl. apply filter_flat_map_all_nil. intros source Hin.
    by apply (adapter_changes_saved_files env (data_sources d1) st1 m).
  - intros Hgit. simpl. apply flat_map_all_nil. intros source Hin.
    by apply (adapter_changes_saved env (data_sources d1) st1 m).
Qed.

Lemma project_git_settled text :
  git_settled (Scenario.project_env text) default_data_sources.
Proof.
  split.
  - unfold github_names. simpl. constructor; [by intros []|constructor].
  - intros source repo Hin Hen Ht Ho.
    destruct Hin as [<-|[<-|[<-|[]]]]; try discriminate Ht.
    simpl in Ho. injection Ho as <-.
    unfold repo_settled. simpl. split; [discriminate|reflexivity].
Defined.

(** A first run of the default configuration in a directory that holds
    [README.md] inside a repository with one commit: three records; after
    saving, the second run returns none. *)
Lemma second_run_emits_nothing_witness :
  let env := Scenario.project_env "hello" in
  exists d1 w1 changes1 d1' w2 d2 d2',
    init Scenario.fresh_world = (Ok d1, w1)
    /\ detect_all_changes env d1 = Ok (changes1, d1')
    /\ length changes1 = 3
    /\ save_current_state env d1' w1 = (Ok tt, w2)
    /\ git_settled env (data_sources d1)
    /\ init w2 = (Ok d2, w2)
    /\ data_sources d2 = data_sources d1
    /\ detect_all_changes env d2 = Ok ([], d2').
Proof.
  intros env.
  set (d1 := Scenario.detector default_data_sources empty_state).
  set (w1 := {| config_file := Some (Json (Some default_data_sources));
                state_file := None; consolidated := [] |}).
  destruct (detect_all_changes_spec env d1) as (d1' & H1 & Hds & _).
  destruct (save_current_state env d1' w1) as [r w2] eqn:Hs.
  assert (Hr : r = Ok tt).
  { unfold save_current_state, current_state in Hs. rewrite Hds in Hs.
    destruct (_calculate_current_file_checksums env (data_sources d1))
      as [m|e] eqn:Em.
    - injection Hs as <- _. reflexivity.
    - vm_compute in Em. discriminate Em. }
  subst r.
  destruct (second_run_emits_nothing env Scenario.fresh_world d1 w1 _ d1' w1 w2
              eq_refl H1 eq_refl Hs)
    as (d2 & changes2 & d2' & Hi & Hd & H2 & _ & Hnil).
  rewrite (Hnil (project_git_settled "hello")) in H2.
  eexists d1, w1, _, d1', w2, d2, d2'.
  split; [reflexivity|]. split; [exact H1|].
  split; [vm_compute; reflexivity|]. split; [exact Hs|].
  split; [exact (project_git_settled "hello")|].
  split; [exact Hi|]. split; [exact Hd|exact H2].
Defined.

(** * Further properties of the detector and of its callers *)

(** ** Strings *)

Lemma append_cons c a b : String c a +:+ b = String c (a +:+ b).
Proof. reflexivity. Qed.

Lemma append_nil_r s : s +:+ "" = s.
Proof.
  induction s as [|c s IH]; [done|]. by rewrite append_cons, IH.
Qed.

Lemma append_assoc a b c : (a +:+ b) +:+ c = a +:+ (b +:+ c).
Proof.
  induction a as [|x a IH]; [done|]. by rewrite !append_cons, IH.
Qed.

Lemma rev_acc_append s acc : PyStr.rev_acc s acc = PyStr.reverse s +:+ acc.
Proof.
  unfold PyStr.reverse. revert acc.
  induction s as [|c s IH]; intros acc; simpl; [done|].
  rewrite (IH (String c acc)), (IH (String c "")).
  by rewrite append_assoc.
Qed.

Lemma reverse_cons c s :
  PyStr.reverse (String c s) = PyStr.reverse s +:+ String c "".
Proof. unfold PyStr.reverse at 1. simpl. apply rev_acc_append. Qed.

Lemma reverse_append a b :
  PyStr.reverse (a +:+ b) = PyStr.reverse b +:+ PyStr.reverse a.
Proof.
  induction a as [|c a IH].
  - change ("" +:+ b) with b. change (PyStr.reverse "") with "".
    by rewrite append_nil_r.
  - by rewrite append_cons, !reverse_cons, IH, append_assoc.
Qed.

Lemma reverse_involutive s : PyStr.reverse (PyStr.reverse s) = s.
Proof.
  induction s as [|c s IH]; [done|].
  by rewrite reverse_cons, reverse_append, IH.
Qed.

Lemma startswith_spec s p :
  PyStr.startswith s p = true <-> exists t, s = p +:+ t.
Proof.
  revert s. induction p as [|a p IH]; intros s; simpl.
  - split; [by exists s|by destruct s].
  - destruct s as [|b s]; simpl.
    + split; [done|]. by intros [t Ht].
    + rewrite andb_true_iff, Ascii.eqb_eq, IH. split.
      * intros [-> [t ->]]. by exists t.
      * intros [t Ht]. rewrite append_cons in Ht. injection Ht as -> ->.
        split; [done|]. by exists t.
Qed.

Lemma endswith_spec s p :
  PyStr.endswith s p = true <-> exists t, s = t +:+ p.
Proof.
  unfold PyStr.endswith. rewrite startswith_spec. split.
  - intros [t Ht]. exists (PyStr.reverse t).
    rewrite <- (reverse_involutive s), Ht, reverse_append.
    by rewrite reverse_involutive.
  - intros [t ->]. exists (PyStr.reverse t). apply reverse_append.
Qed.

(** X1. [_should_process_file] accepts a path exactly when the list of
    patterns is empty or the path ends with some pattern from which every
    star has been removed: the stars are dropped wherever they stand, they
    are not wildcards. *)
Theorem should_process_file_suffix file_path patterns :
  _should_process_file file_path patterns = true <->
  patterns = []
  \/ exists pattern t,
       In pattern patterns
       /\ file_path = t +:+ PyStr.remove_char "*" pattern.
Proof.
  unfold _should_process_file. destruct patterns as [|p0 ps]; [by split; auto|].
  rewrite existsb_exists. split.
  - intros (pattern & Hin & He). right.
    apply endswith_spec in He as [t Ht]. by exists pattern, t.
  - intros [H|(pattern & t & Hin & Ht)]; [done|].
    exists pattern. split; [done|]. apply endswith_spec. by exists t.
Qed.

Example should_process_star_in_the_middle :
  _should_process_file "tests/test_app.py" ["test_*.py"] = false
  /\ _should_process_file "tests/test_.py" ["test_*.py"] = true
  /\ _should_process_file "notes.txt" ["*"] = true.
Proof. repeat split. Qed.

(** ** The git adapter *)

Lemma git_file_step_records repo source commit changes file_path :
  git_file_step repo source commit changes file_path =
  changes ++ git_file_records repo source commit file_path.
Proof.
  unfold git_file_step, git_file_records.
  destruct (_should_process_file _ _); [|by rewrite app_nil_r].
  destruct (git_show repo _); [done|by rewrite app_nil_r].
Qed.

Lemma git_files_records repo source commit files changes :
  fold_left (git_file_step repo source commit) files changes =
  changes ++ flat_map (git_file_records repo source commit) files.
Proof.
  revert changes. induction files as [|f files IH]; intros changes; simpl.
  - by rewrite app_nil_r.
  - by rewrite IH, git_file_step_records, <- app_assoc.
Qed.

Lemma git_commits_loop_records repo source commits changes :
  fst (git_commits_loop repo source commits changes) =
  changes
  ++ flat_map (commit_records repo source) (commits_before_failure commits).
Proof.
  revert changes.
  induction commits as [|c commits IH]; intros changes; simpl.
  - by rewrite app_nil_r.
  - destruct (stats_files c) as [files|e] eqn:E; simpl.
    + rewrite IH, git_files_records, <- app_assoc. do 2 f_equal.
      unfold commit_records. by rewrite E.
    + by rewrite app_nil_r.
Qed.

(** X2. When a revision is saved for the source, the git adapter reads the
    commits from that revision to HEAD and returns, in the order of the
    listing and of each commit's files, one record per file that the
    allow-list accepts and [git show] can read. A file that cannot be shown
    is skipped alone; the listing stops at the first commit whose
    statistics cannot be read, and the records of the commits before it
    are kept. *)
Theorem git_changes_since_saved_revision env st source repo h commits :
  open_repo env (default "." (cfg_path (config source))) = Ok repo ->
  default ∅ (git_commit_hashes st) !! name source = Some h ->
  h <> "" ->
  iter_commits_rev repo (h +:+ "..HEAD") = Ok commits ->
  _detect_git_changes env st source =
  Ok (flat_map (commit_records repo source) (commits_before_failure commits)).
Proof.
  intros Ho Hh Hne Hc. unfold _detect_git_changes. rewrite Ho, Hh.
  destruct (String.eqb h "") eqn:E; [by apply String.eqb_eq in E|].
  rewrite Hc. f_equal. apply git_commits_loop_records.
Qed.

(** Three commits since the saved revision: only [app.py] of the newest
    one is recorded. *)
Lemma git_changes_since_saved_revision_witness :
  let source := Scenario.github "Current Repository" "." ["*.py"; "*.md"] in
  _detect_git_changes Scenario.history_env Scenario.history_state source =
  Ok (flat_map (commit_records Scenario.history_repo source)
        (commits_before_failure
           [Scenario.newest_commit; Scenario.middle_commit;
            Scenario.oldest_commit]))
  /\ map (fun c => (file_path_of c, content c))
       (flat_map (commit_records Scenario.history_repo source)
          (commits_before_failure
             [Scenario.newest_commit; Scenario.middle_commit;
              Scenario.oldest_commit]))
     = [(Some "app.py", "print(3)")].
Proof.
  intros source. split; [|vm_compute; reflexivity].
  apply (git_changes_since_saved_revision Scenario.history_env
           Scenario.history_state source Scenario.history_repo
           "3f786850e387550fdab836ed7e6dc881de23001b").
  - reflexivity.
  - vm_compute. reflexivity.
  - discriminate.
  - reflexivity.
Defined.

(** X3. When no revision is saved for the source, or the saved one is the
    empty string, the git adapter reads the commits of the last day
    instead, with the same treatment of files and commits. *)
Theorem git_changes_first_run env st source repo commits :
  open_repo env (default "." (cfg_path (config source))) = Ok repo ->
  default ∅ (git_commit_hashes st) !! name source = None
  \/ default ∅ (git_commit_hashes st) !! name source = Some "" ->
  iter_commits_since repo = Ok commits ->
  _detect_git_changes env st source =
  Ok (flat_map (commit_records repo source) (commits_before_failure commits)).
Proof.
  intros Ho Hh Hc. unfold _detect_git_changes. rewrite Ho.
  destruct Hh as [-> | ->]; simpl; rewrite Hc; f_equal;
    apply git_commits_loop_records.
Qed.

Lemma git_changes_first_run_witness :
  let source := Scenario.github "Current Repository" "." ["*.py"] in
  _detect_git_changes Scenario.repo_env empty_state source =
  Ok (flat_map (commit_records Scenario.one_commit_repo source)
        (commits_before_failure [Scenario.first_commit]))
  /\ map (fun c => (file_path_of c, content c))
       (flat_map (commit_records Scenario.one_commit_repo source)
          (commits_before_failure [Scenario.first_commit]))
     = [(Some "app.py", "print(1)")].
Proof.
  intros source. split; [|vm_compute; reflexivity].
  apply (git_changes_first_run Scenario.repo_env empty_state source
           Scenario.one_commit_repo).
  - reflexivity.
  - left. vm_compute. reflexivity.
  - reflexivity.
Defined.

(** ** Sources are independent of each other *)

(** X4. Running a configuration that lists the sources of two
    configurations one after the other returns the records of the first
    followed by the records of the second, each as returned by a run of its
    own from the same state: no source sees what another one did. *)
Theorem detect_all_changes_concat env sources1 sources2 st dc1 dc2 dc :
  exists c1 c2 d1 d2 d,
    detect_all_changes env
      {| data_sources := sources1; last_run_state := st;
         detected_changes := dc1 |} = Ok (c1, d1)
    /\ detect_all_changes env
         {| data_sources := sources2; last_run_state := st;
            detected_changes := dc2 |} = Ok (c2, d2)
    /\ detect_all_changes env
         {| data_sources := sources1 ++ sources2; last_run_state := st;
            detected_changes := dc |} = Ok (c1 ++ c2, d).
Proof.
  destruct (detect_all_changes_spec env
              {| data_sources := sources1; last_run_state := st;
                 detected_changes := dc1 |}) as (d1 & H1 & _).
  destruct (detect_all_changes_spec env
              {| data_sources := sources2; last_run_state := st;
                 detected_changes := dc2 |}) as (d2 & H2 & _).
  destruct (detect_all_changes_spec env
              {| data_sources := sources1 ++ sources2; last_run_state := st;
                 detected_changes := dc |}) as (d & H & _).
  simpl in *. eexists _, _, d1, d2, d.
  split; [exact H1|]. split; [exact H2|].
  rewrite H. by rewrite flat_map_app.
Qed.

(** X5. Listing the same sources in another order returns the same
    records in another order. *)
Theorem detect_all_changes_order_insensitive env sources1 sources2 st
    dc1 dc2 :
  Permutation sources1 sources2 ->
  exists c1 c2 d1 d2,
    detect_all_changes env
      {| data_sources := sources1; last_run_state := st;
         detected_changes := dc1 |} = Ok (c1, d1)
    /\ detect_all_changes env
         {| data_sources := sources2; last_run_state := st;
            detected_changes := dc2 |} = Ok (c2, d2)
    /\ Permutation c1 c2.
Proof.
  intros Hp.
  destruct (detect_all_changes_spec env
              {| data_sources := sources1; last_run_state := st;
                 detected_changes := dc1 |}) as (d1 & H1 & _).
  destruct (detect_all_changes_spec env
              {| data_sources := sources2; last_run_state := st;
                 detected_changes := dc2 |}) as (d2 & H2 & _).
  simpl in *. eexists _, _, d1, d2.
  split; [exact H1|]. split; [exact H2|].
  by apply Permutation_flat_map.
Qed.

Lemma detect_all_changes_order_insensitive_witness :
  let env := Scenario.project_env "hello" in
  exists c1 c2 d1 d2,
    detect_all_changes env
      (Scenario.detector default_data_sources empty_state) = Ok (c1, d1)
    /\ detect_all_changes env
         (Scenario.detector (rev default_data_sources) empty_state)
       = Ok (c2, d2)
    /\ map source_name c1
       = ["Current Repository"; "Documentation Files"; "Documentation Files"]
    /\ Permutation c1 c2.
Proof.
  intros env.
  destruct (detect_all_changes_order_insensitive env default_data_sources
              (rev default_data_sources) empty_state [] []
              (Permutation_rev default_data_sources))
    as (c1 & c2 & d1 & d2 & H1 & H2 & Hp).
  exists c1, c2, d1, d2. split; [exact H1|]. split; [exact H2|].
  split; [|exact Hp].
  destruct (detect_all_changes_spec env
              (Scenario.detector default_data_sources empty_state))
    as (d & H & _).
  unfold Scenario.detector in H. rewrite H in H1. injection H1 as <- _.
  vm_compute. reflexivity.
Defined.

Lemma adapter_changes_inactive env st source :
  active source = false -> adapter_changes env st source = [].
Proof.
  unfold active, adapter_changes.
  destruct (enabled source); simpl; [|done].
  destruct (String.eqb (type source) "github"); simpl; [done|].
  by destruct (String.eqb (type source) "local_files").
Qed.

Lemma flat_map_filter_nil {A B} (p : A -> bool) (g : A -> list B) l :
  (forall x, p x = false -> g x = []) ->
  flat_map g (List.filter p l) = flat_map g l.
Proof.
  intros H. induction l as [|x l IH]; simpl; [done|].
  destruct (p x) eqn:E; simpl; [by rewrite IH|].
  by rewrite H, IH.
Qed.

(** X6. A source that is disabled, or whose type is neither "github" nor
    "local_files" (the "google_docs" and "slack" placeholders, an unknown
    type), adds nothing: the run returns what it returns once these
    sources are taken out of the configuration. *)
Theorem inactive_sources_add_nothing env sources st dc1 dc2 :
  exists changes d1 d2,
    detect_all_changes env
      {| data_sources := sources; last_run_state := st;
         detected_changes := dc1 |} = Ok (changes, d1)
    /\ detect_all_changes env
         {| data_sources := List.filter active sources; last_run_state := st;
            detected_changes := dc2 |} = Ok (changes, d2).
Proof.
  destruct (detect_all_changes_spec env
              {| data_sources := sources; last_run_state := st;
                 detected_changes := dc1 |}) as (d1 & H1 & _).
  destruct (detect_all_changes_spec env
              {| data_sources := List.filter active sources;
                 last_run_state := st; detected_changes := dc2 |})
    as (d2 & H2 & _).
  simpl in *. eexists _, d1, d2. split; [exact H1|].
  rewrite H2. do 2 f_equal. apply flat_map_filter_nil.
  intros source. apply adapter_changes_inactive.
Qed.

(** X7. [detect_all_changes] does not record what it has seen: it leaves
    the stored checksums and revisions as they were, so calling it again
    on the same detector, without saving and reloading, returns the same
    records once more. *)
Theorem detect_all_changes_repeats_without_save env d changes d' :
  detect_all_changes env d = Ok (changes, d') ->
  file_checksums (last_run_state d') = file_checksums (last_run_state d)
  /\ git_commit_hashes (last_run_state d')
     = git_commit_hashes (last_run_state d)
  /\ detected_changes d' = changes
  /\ exists d'', detect_all_changes env d' = Ok (changes, d'').
Proof.
  intros H.
  destruct (detect_all_changes_spec env d) as (d1 & H1 & Hds & [Hf Hg] & Hdc).
  rewrite H1 in H. injection H as <- <-.
  split; [done|]. split; [done|]. split; [done|].
  destruct (detect_all_changes_spec env d1) as (d2 & H2 & _).
  exists d2. rewrite H2, Hds. do 2 f_equal.
  apply flat_map_ext. intros source. symmetry.
  by apply adapter_changes_same_store.
Qed.

Lemma detect_all_changes_repeats_without_save_witness :
  let env := Scenario.readme_env "hello" in
  let d := Scenario.detector default_data_sources empty_state in
  exists changes d' d'',
    detect_all_changes env d = Ok (changes, d')
    /\ map change_type changes = ["added"; "added"]
    /\ detect_all_changes env d' = Ok (changes, d'').
Proof.
  intros env d.
  destruct (detect_all_changes_spec env d) as (d' & H & _).
  destruct (detect_all_changes_repeats_without_save env d _ d' H)
    as (_ & _ & _ & d'' & H2).
  eexists _, d', d''. split; [exact H|].
  split; [vm_compute; reflexivity|exact H2].
Defined.

(** X8. A file whose stored checksum is the checksum of its present text
    is not reported, however many patterns and sources enumerate it. *)
Theorem unchanged_file_not_reported env sources st dc f text changes d' :
  default ∅ (file_checksums st) !! f = Some (md5_hex text) ->
  read_text env f = Ok text ->
  detect_all_changes env
    {| data_sources := sources; last_run_state := st;
       detected_changes := dc |} = Ok (changes, d') ->
  records_for f changes = [].
Proof.
  intros Hs Ht Hrun.
  destruct (detect_all_changes_spec env
              {| data_sources := sources; last_run_state := st;
                 detected_changes := dc |}) as (d1 & H & _).
  rewrite H in Hrun. simpl in *. injection Hrun as <- _.
  destruct (records_for_run_count env st sources f 0 (fun _ => True))
    as [Hl _].
  { intros source. split; [|by apply Forall_forall].
    unfold reconcile_file. destruct (is_file env f); [|done].
    rewrite Ht, Hs. simpl. by rewrite String.eqb_refl. }
  by apply length_zero_iff_nil.
Qed.

Lemma unchanged_file_not_reported_witness :
  let env := Scenario.readme_env "hello" in
  exists changes d',
    detect_all_changes env
      (Scenario.detector default_data_sources Scenario.readme_state)
    = Ok (changes, d')
    /\ enumerations env default_data_sources "README.md" = 2
    /\ records_for "README.md" changes = [].
Proof.
  intros env.
  destruct (detect_all_changes_spec env
              (Scenario.detector default_data_sources Scenario.readme_state))
    as (d' & H & _).
  eexists _, d'. split; [exact H|]. split; [vm_compute; reflexivity|].
  apply (unchanged_file_not_reported env default_data_sources
           Scenario.readme_state [] "README.md" "hello" _ d').
  - vm_compute. reflexivity.
  - reflexivity.
  - exact H.
Defined.

(** ** What [save_current_state] writes *)

Lemma checksum_step_sound env (m : gmap string string) p q v :
  checksum_step env m p !! q = Some v ->
  m !! q = Some v
  \/ (q = p /\ is_file env p = true
      /\ exists text, read_text env p = Ok text /\ v = md5_hex text).
Proof.
  unfold checksum_step.
  destruct (is_file env p) eqn:Hf; [|by left].
  destruct (read_text env p) as [text|e] eqn:Ht; [|by left].
  destruct (decide (p = q)) as [->|Hne].
  - rewrite lookup_insert_eq. intros [= <-]. right. eauto.
  - rewrite lookup_insert_ne by done. by left.
Qed.

Lemma fold_checksum_step_sound env paths (m : gmap string string) q v :
  fold_left (checksum_step env) paths m !! q = Some v ->
  m !! q = Some v
  \/ (In q paths /\ is_file env q = true
      /\ exists text, read_text env q = Ok text /\ v = md5_hex text).
Proof.
  revert m. induction paths as [|p paths IH]; intros m H; simpl in *.
  - by left.
  - destruct (IH _ H) as [H1|(Hin & Hrest)].
    + destruct (checksum_step_sound env m p q v H1)
        as [H2|(-> & Hf & Ht)]; [by left|].
      right. split; [by left|done].
    + right. split; [by right|done].
Qed.

Lemma checksum_sources_loop_sound env sources (m m' : gmap string string)
    q v :
  checksum_sources_loop env sources m = Ok m' ->
  m' !! q = Some v ->
  m !! q = Some v
  \/ exists source paths text,
       In source sources
       /\ type source = "local_files"
       /\ glob_all env (default [] (cfg_paths (config source))) = Ok paths
       /\ In q paths
       /\ is_file env q = true
       /\ read_text env q = Ok text
       /\ v = md5_hex text.
Proof.
  revert m. induction sources as [|s sources IH]; intros m; simpl.
  - intros [= <-] H. by left.
  - destruct (String.eqb (type s) "local_files") eqn:Ht.
    + rewrite checksum_patterns_loop_glob_all.
      destruct (glob_all env (default [] (cfg_paths (config s))))
        as [paths|e] eqn:Hg; simpl; [|done].
      intros Hloop Hq.
      destruct (IH _ Hloop Hq) as [H1|(source & ps & text & Hin & Hrest)].
      * destruct (fold_checksum_step_sound env paths m q v H1)
          as [H2|(Hin & Hf & text & Hr & Hv)]; [by left|].
        right. exists s, paths, text. apply String.eqb_eq in Ht.
        split; [by left|done].
      * right. exists source, ps, text. split; [by right|done].
    + intros Hloop Hq.
      destruct (IH _ Hloop Hq) as [H1|(source & ps & text & Hin & Hrest)];
        [by left|].
      right. exists source, ps, text. split; [by right|done].
Qed.

(** X9. The checksums that [save_current_state] computes are exactly
    those of the readable regular files that the patterns of the
    "local_files" sources enumerate at that moment, enabled or not, each
    with the MD5 of its present text; a file that no pattern yields any
    more is no longer in the saved map. *)
Theorem saved_checksums_exact env sources m p v :
  _calculate_current_file_checksums env sources = Ok m ->
  m !! p = Some v <->
  exists source paths text,
    In source sources
    /\ type source = "local_files"
    /\ glob_all env (default [] (cfg_paths (config source))) = Ok paths
    /\ In p paths
    /\ is_file env p = true
    /\ read_text env p = Ok text
    /\ v = md5_hex text.
Proof.
  unfold _calculate_current_file_checksums. intros Hm. split.
  - intros Hp.
    destruct (checksum_sources_loop_sound env sources ∅ m p v Hm Hp)
      as [H|H]; [|done].
    by rewrite lookup_empty in H.
  - intros (source & paths & text & Hin & Ht & Hg & Hp & Hf & Hr & ->).
    by eapply checksum_sources_loop_covers.
Qed.

(** The documentation source over [README.md]: the saved map holds
    [README.md] and, for instance, not [app.py]. *)
Lemma saved_checksums_exact_witness :
  let env := Scenario.readme_env "hello" in
  let docs :=
    Scenario.local_files "Documentation Files"
      ["docs/"; "README.md"; "*.md"] in
  exists m,
    _calculate_current_file_checksums env [docs] = Ok m
    /\ m !! "README.md" = Some "5d41402abc4b2a76b9719d911017c592"
    /\ m !! "app.py" = None.
Proof.
  intros env docs.
  destruct (_calculate_current_file_checksums env [docs])
    as [m|e] eqn:Hm; [|vm_compute in Hm; discriminate Hm].
  exists m. split; [reflexivity|]. split.
  - apply (saved_checksums_exact env [docs] m "README.md"
             "5d41402abc4b2a76b9719d911017c592" Hm).
    exists docs, ["README.md"; "README.md"], "hello".
    split; [by left|].
    split; [reflexivity|]. split; [reflexivity|].
    split; [by left|]. split; [reflexivity|]. split; [reflexivity|].
    vm_compute. reflexivity.
  - destruct (m !! "app.py") as [v|] eqn:Hv; [|reflexivity].
    apply (saved_checksums_exact env [docs] m "app.py" v Hm)
      in Hv as (source & paths & text & _ & _ & _ & _ & Hf & _).
    discriminate Hf.
Defined.

Lemma checksum_sources_loop_raise env sources (m : gmap string string)
    source e :
  In source sources ->
  type source = "local_files" ->
  glob_all env (default [] (cfg_paths (config source))) = Raise e ->
  exists e', checksum_sources_loop env sources m = Raise e'.
Proof.
  revert m. induction sources as [|s sources IH]; intros m Hin Ht Hg.
  - destruct Hin.
  - simpl. destruct Hin as [->|Hin].
    + rewrite Ht. simpl. rewrite checksum_patterns_loop_glob_all, Hg.
      by exists e.
    + destruct (String.eqb (type s) "local_files"); [|by apply IH].
      rewrite checksum_patterns_loop_glob_all.
      destruct (glob_all env (default [] (cfg_paths (config s))))
        as [paths|e2]; simpl; [by apply IH|by exists e2].
Qed.

(** X10. [save_current_state] is less tolerant than [detect_all_changes]:
    when a pattern of any "local_files" source, enabled or not, makes
    [glob] raise, detection still returns but saving raises, and the state
    file is left as it was. *)
Theorem save_fails_on_raising_pattern env d w source e :
  In source (data_sources d) ->
  type source = "local_files" ->
  glob_all env (default [] (cfg_paths (config source))) = Raise e ->
  (exists changes d', detect_all_changes env d = Ok (changes, d'))
  /\ exists e', save_current_state env d w = (Raise e', w).
Proof.
  intros Hin Ht Hg. split.
  - destruct (detect_all_changes_spec env d) as (d' & H & _). eauto.
  - destruct (checksum_sources_loop_raise env (data_sources d) ∅ source e
                Hin Ht Hg) as [e' He].
    exists e'. unfold save_current_state, current_state,
      _calculate_current_file_checksums. by rewrite He.
Qed.

(** A disabled source with an absolute pattern next to the documentation
    source. *)
Lemma save_fails_on_raising_pattern_witness :
  let env := Scenario.absolute_env "hello" in
  let wiki :=
    Scenario.disabled (Scenario.local_files "Wiki" ["/srv/wiki/*.md"]) in
  let docs := Scenario.local_files "Documentation Files" ["README.md"] in
  let d := Scenario.detector [wiki; docs] empty_state in
  (exists changes d', detect_all_changes env d = Ok (changes, d'))
  /\ exists e',
       save_current_state env d Scenario.later_world
       = (Raise e', Scenario.later_world).
Proof.
  intros env wiki docs d.
  apply (save_fails_on_raising_pattern env d Scenario.later_world wiki
           NotImplementedError).
  - by left.
  - reflexivity.
  - reflexivity.
Defined.

(** X11. The saved checksums come from the files as they are when
    [save_current_state] runs, not from what the run detected: when the
    files change between detection (over [env1]) and saving (over [env2]),
    the next run over [env2] returns no filesystem record, so the text
    written in between is never reported. *)
Theorem edits_before_save_are_never_reported env1 env2 w d1 w1 changes1 d1'
    wa w2 :
  init w = (Ok d1, w1) ->
  detect_all_changes env1 d1 = Ok (changes1, d1') ->
  config_file wa = config_file w1 ->
  save_current_state env2 d1' wa = (Ok tt, w2) ->
  exists d2 changes2 d2',
    init w2 = (Ok d2, w2)
    /\ detect_all_changes env2 d2 = Ok (changes2, d2')
    /\ List.filter is_file_record changes2 = [].
Proof.
  intros Hinit Hrun Hcfg Hsave.
  destruct (init_inv w d1 w1 Hinit) as (c & Hc & Hds & _).
  destruct (detect_all_changes_spec env1 d1) as (dx & Hx & Hdsx & _).
  rewrite Hx in Hrun. injection Hrun as _ <-.
  unfold save_current_state, current_state,
    _calculate_current_file_checksums in Hsave.
  rewrite Hdsx in Hsave.
  destruct (checksum_sources_loop env2 (data_sources d1) ∅) as [m|e] eqn:Hm;
    simpl in Hsave; [|discriminate].
  injection Hsave as <-.
  set (st1 := {| last_run_timestamp := Some (now_isoformat env2);
                 file_checksums := Some m;
                 git_commit_hashes :=
                   Some (_get_current_git_commits env2 (data_sources d1));
                 processed_changes := Some (map evidence_id (detected_changes dx));
                 source_checksums := ∅ |}).
  set (d2 := {| data_sources := data_sources d1; last_run_state := st1;
                detected_changes := [] |}).
  destruct (detect_all_changes_spec env2 d2) as (d2' & H2 & _).
  eexists d2, _, d2'. split; [|split; [exact H2|]].
  - unfold init, load_configuration, write_state. simpl.
    rewrite Hcfg, Hc. simpl. unfold d2. by rewrite Hds.
  - simpl. apply filter_flat_map_all_nil. intros source Hin.
    by apply (adapter_changes_saved_files env2 (data_sources d1) st1 m).
Qed.

(** [README.md] reads "hello" when the first run detects it and
    "hello world" when the state is saved: the first run reported
    "hello", the second run over "hello world" reports nothing. *)
Lemma edits_before_save_are_never_reported_witness :
  let env1 := Scenario.readme_env "hello" in
  let env2 := Scenario.readme_env "hello world" in
  exists d1 w1 changes1 d1' w2 d2 changes2 d2',
    init Scenario.fresh_world = (Ok d1, w1)
    /\ detect_all_changes env1 d1 = Ok (changes1, d1')
    /\ map content changes1 = ["hello"; "hello"]
    /\ save_current_state env2 d1' w1 = (Ok tt, w2)
    /\ init w2 = (Ok d2, w2)
    /\ detect_all_changes env2 d2 = Ok (changes2, d2')
    /\ List.filter is_file_record changes2 = [].
Proof.
  intros env1 env2.
  set (d1 := Scenario.detector default_data_sources empty_state).
  set (w1 := {| config_file := Some (Json (Some default_data_sources));
                state_file := None; consolidated := [] |}).
  destruct (detect_all_changes_spec env1 d1) as (d1' & H1 & Hds & _).
  destruct (save_current_state env2 d1' w1) as [r w2] eqn:Hs.
  assert (Hr : r = Ok tt).
  { unfold save_current_state, current_state in Hs. rewrite Hds in Hs.
    destruct (_calculate_current_file_checksums env2 (data_sources d1))
      as [m|e] eqn:Em.
    - injection Hs as <- _. reflexivity.
    - vm_compute in Em. discriminate Em. }
  subst r.
  destruct (edits_before_save_are_never_reported env1 env2
              Scenario.fresh_world d1 w1 _ d1' w1 w2 eq_refl H1 eq_refl Hs)
    as (d2 & changes2 & d2' & Hi & H2 & Hnil).
  eexists d1, w1, _, d1', w2, d2, changes2, d2'.
  split; [reflexivity|]. split; [exact H1|].
  split; [vm_compute; reflexivity|]. split; [exact Hs|].
  split; [exact Hi|]. split; [exact H2|exact Hnil].
Defined.

Lemma git_head_step_sound env (m : gmap string string) s n h :
  git_head_step env m s !! n = Some h ->
  m !! n = Some h
  \/ (type s = "github" /\ name s = n
      /\ exists repo,
           open_repo env (default "." (cfg_path (config s))) = Ok repo
           /\ head_commit repo = Ok h).
Proof.
  unfold git_head_step.
  destruct (String.eqb (type s) "github") eqn:Ht; [|by left].
  destruct (open_repo env _) as [repo|e] eqn:Ho; [|by left].
  destruct (head_commit repo) as [h'|e] eqn:Hh; [|by left].
  destruct (decide (name s = n)) as [<-|Hne].
  - rewrite lookup_insert_eq. intros [= <-]. right.
    apply String.eqb_eq in Ht. eauto.
  - rewrite lookup_insert_ne by done. by left.
Qed.

Lemma git_heads_sound env sources (m : gmap string string) n h :
  fold_left (git_head_step env) sources m !! n = Some h ->
  m !! n = Some h
  \/ exists source repo,
       In source sources
       /\ type source = "github"
       /\ name source = n
       /\ open_repo env (default "." (cfg_path (config source))) = Ok repo
       /\ head_commit repo = Ok h.
Proof.
  revert m. induction sources as [|s sources IH]; intros m H; simpl in *.
  - by left.
  - destruct (IH _ H) as [H1|(source & repo & Hin & Hrest)].
    + destruct (git_head_step_sound env m s n h H1)
        as [H2|(Ht & Hn & repo & Ho & Hh)]; [by left|].
      right. exists s, repo. split; [by left|done].
    + right. exists source, repo. split; [by right|done].
Qed.

(** X12. Every revision that [_get_current_git_commits] saves under a
    name is the HEAD revision of the repository of a "github" source with
    that name; a source whose repository cannot be opened or has no HEAD
    commit is not saved. When the names of the "github" sources are
    distinct, each source whose repository opens with a HEAD is saved with
    that HEAD. *)
Theorem saved_revisions_are_heads env sources :
  (forall n h,
     _get_current_git_commits env sources !! n = Some h ->
     exists source repo,
       In source sources
       /\ type source = "github"
       /\ name source = n
       /\ open_repo env (default "." (cfg_path (config source))) = Ok repo
       /\ head_commit repo = Ok h)
  /\ (List.NoDup (github_names sources) ->
      forall source repo h,
        In source sources ->
        type source = "github" ->
        open_repo env (default "." (cfg_path (config source))) = Ok repo ->
        head_commit repo = Ok h ->
        _get_current_git_commits env sources !! name source = Some h).
Proof.
  unfold _get_current_git_commits. split.
  - intros n h H.
    destruct (git_heads_sound env sources ∅ n h H) as [H1|H1]; [|done].
    by rewrite lookup_empty in H1.
  - intros Hnd source repo h Hin Ht Ho Hh.
    rewrite (git_heads_lookup env sources ∅ source repo Hnd Hin Ht Ho).
    by rewrite Hh.
Qed.

Lemma saved_revisions_are_heads_witness :
  let env := Scenario.project_env "hello" in
  _get_current_git_commits env default_data_sources !! "Current Repository"
  = Some "3f786850e387550fdab836ed7e6dc881de23001b"
  /\ exists source repo,
       In source default_data_sources
       /\ type source = "github"
       /\ name source = "Current Repository"
       /\ open_repo env (default "." (cfg_path (config source))) = Ok repo
       /\ head_commit repo = Ok "3f786850e387550fdab836ed7e6dc881de23001b".
Proof.
  intros env.
  assert (H : _get_current_git_commits env default_data_sources
              !! "Current Repository"
              = Some "3f786850e387550fdab836ed7e6dc881de23001b").
  { vm_compute. reflexivity. }
  split; [exact H|].
  destruct (saved_revisions_are_heads env default_data_sources) as [Hs _].
  exact (Hs _ _ H).
Defined.

(** ** Initialisation *)

(** X13. A detector that has been constructed can be constructed again
    with the same result and without any further write: the default
    configuration is created once, when the configuration file is missing,
    and read back as the same sources afterwards. *)
Theorem init_again w d w1 :
  init w = (Ok d, w1) -> init w1 = (Ok d, w1).
Proof.
  unfold init, load_configuration.
  destruct (config_file w) as [[|c]|] eqn:Hc; simpl.
  - discriminate.
  - destruct (load_last_run_state w) as [st|e] eqn:Hl; intros [= <- <-].
    by rewrite Hc, Hl.
  - destruct (load_last_run_state _) as [st|e] eqn:Hl; intros [= <- <-].
    simpl. unfold load_last_run_state in *. simpl in *.
    by destruct (state_file w) as [[|st0]|]; simplify_eq.
Qed.

Lemma init_again_witness :
  exists d w1,
    init Scenario.fresh_world = (Ok d, w1)
    /\ config_file w1 = Some (Json (Some default_data_sources))
    /\ last_run_state d = empty_state
    /\ init w1 = (Ok d, w1).
Proof.
  eexists _, _. split; [reflexivity|]. split; [reflexivity|].
  split; [reflexivity|].
  exact (init_again Scenario.fresh_world _ _ eq_refl).
Defined.

(** X14. The configuration is read before the state: with a configuration
    file that cannot be parsed, [main] raises whatever the state file and
    the environment are, and writes nothing at all. *)
Theorem malformed_configuration_aborts env w :
  config_file w = Some Malformed ->
  main env w = (Raise JSONDecodeError, w).
Proof.
  intros H. unfold main, init, load_configuration. by rewrite H.
Qed.

Lemma malformed_configuration_aborts_witness :
  main (Scenario.readme_env "hello") Scenario.misconfigured_world
  = (Raise JSONDecodeError, Scenario.misconfigured_world).
Proof.
  exact (malformed_configuration_aborts (Scenario.readme_env "hello")
           Scenario.misconfigured_world eq_refl).
Defined.

(** ** The categories of the consolidated report *)

Lemma categorize_fold changes cats :
  fold_left categorize_step changes cats =
  {| technical_code := technical_code cats ++ in_category TechnicalCode changes;
     documentation := documentation cats ++ in_category Documentation changes;
     configuration := configuration cats ++ in_category Configuration changes;
     other := other cats ++ in_category Other changes |}.
Proof.
  revert cats. induction changes as [|c changes IH]; intros cats; simpl.
  - rewrite !app_nil_r. by destruct cats.
  - rewrite IH. unfold categorize_step, in_category. simpl.
    destruct (category_of (metadata_file_path c)); simpl;
      by rewrite <- ?app_assoc.
Qed.

Lemma in_category_lengths changes :
  length (in_category TechnicalCode changes)
  + length (in_category Documentation changes)
  + length (in_category Configuration changes)
  + length (in_category Other changes) = length changes.
Proof.
  unfold in_category. induction changes as [|c changes IH]; simpl; [done|].
  destruct (category_of (metadata_file_path c)); simpl; lia.
Qed.

(** X15. The four lists that [_write_changes_by_type] builds split the
    changes: each list holds, in the order of the input, the changes whose
    path falls in its category, and together they hold every change
    once. *)
Theorem categories_partition changes :
  technical_code (categorize changes) = in_category TechnicalCode changes
  /\ documentation (categorize changes) = in_category Documentation changes
  /\ configuration (categorize changes) = in_category Configuration changes
  /\ other (categorize changes) = in_category Other changes
  /\ length (technical_code (categorize changes))
     + length (documentation (categorize changes))
     + length (configuration (categorize changes))
     + length (other (categorize changes)) = length changes.
Proof.
  unfold categorize. rewrite categorize_fold. simpl.
  repeat split. apply in_category_lengths.
Qed.

Lemma contains_cons c s sub :
  PyStr.contains (String c s) sub =
  PyStr.startswith (String c s) sub || PyStr.contains s sub.
Proof. reflexivity. Qed.

Lemma startswith_prefix s a b :
  PyStr.startswith s (a +:+ b) = true -> PyStr.startswith s a = true.
Proof.
  rewrite !startswith_spec. intros [t ->]. exists (b +:+ t).
  apply append_assoc.
Qed.

Lemma contains_prefix s a b :
  PyStr.contains s (a +:+ b) = true -> PyStr.contains s a = true.
Proof.
  induction s as [|c s IH].
  - change (PyStr.contains "" (a +:+ b))
      with (PyStr.startswith "" (a +:+ b) || false).
    change (PyStr.contains "" a) with (PyStr.startswith "" a || false).
    rewrite !orb_false_r. apply startswith_prefix.
  - rewrite !contains_cons, !orb_true_iff.
    intros [H|H]; [left; by eapply startswith_prefix|right; by apply IH].
Qed.

(** X16. The extensions are looked for anywhere in the path and the code
    extensions come first, so a path that contains ".json" always counts
    as technical code (it contains ".js"): the "Configuration" category
    only receives paths that contain ".yml", ".yaml" or ".env". *)
Theorem json_paths_are_technical_code file_path :
  (PyStr.contains file_path ".json" = true ->
   category_of file_path = TechnicalCode)
  /\ (category_of file_path = Configuration ->
      any_in [".yml"; ".yaml"; ".env"] file_path = true).
Proof.
  assert (Hjs : PyStr.contains file_path ".json" = true ->
                any_in [".py"; ".js"; ".ts"; ".jsx"; ".tsx"] file_path = true).
  { intros H. unfold any_in. simpl.
    rewrite (contains_prefix file_path ".js" "on" H).
    by rewrite orb_true_r. }
  split.
  - intros H. unfold category_of. by rewrite (Hjs H).
  - unfold category_of.
    destruct (any_in [".py"; ".js"; ".ts"; ".jsx"; ".tsx"] file_path) eqn:E1;
      [done|].
    destruct (any_in [".md"; ".rst"; ".txt"] file_path); [done|].
    destruct (any_in [".json"; ".yml"; ".yaml"; ".env"] file_path) eqn:E3;
      [|done].
    intros _. unfold any_in in *. simpl in *.
    destruct (PyStr.contains file_path ".json") eqn:Ej; [|done].
    discriminate (Hjs eq_refl).
Qed.

Lemma json_paths_are_technical_code_witness :
  PyStr.contains "package.json" ".json" = true
  /\ category_of "package.json" = TechnicalCode
  /\ category_of "docker-compose.yml" = Configuration
  /\ any_in [".yml"; ".yaml"; ".env"] "docker-compose.yml" = true.
Proof.
  destruct (json_paths_are_technical_code "package.json") as [H1 _].
  destruct (json_paths_are_technical_code "docker-compose.yml") as [_ H2].
  split; [reflexivity|]. split; [exact (H1 eq_refl)|].
  split; [reflexivity|exact (H2 eq_refl)].
Defined.

(** ** Counting changes *)

Lemma group_fold_lookup key changes (groups : gmap string nat) k :
  fold_left (group_step key) changes groups !! k =
  if Nat.eqb (count_by key k changes) 0 then groups !! k
  else Some (default 0 (groups !! k) + count_by key k changes).
Proof.
  revert groups. unfold count_by.
  induction changes as [|c changes IH]; intros groups; simpl; [done|].
  rewrite IH. unfold group_step.
  destruct (String.eqb (key c) k) eqn:E; simpl.
  - apply String.eqb_eq in E as ->. rewrite lookup_insert_eq. simpl.
    destruct (Nat.eqb (length _) 0) eqn:E0.
    + apply Nat.eqb_eq in E0 as ->. done.
    + f_equal. lia.
  - apply String.eqb_neq in E. by rewrite lookup_insert_ne.
Qed.

Lemma total_group_step key (groups : gmap string nat) c :
  total (group_step key groups c) = S (total groups).
Proof.
  unfold total, group_step.
  assert (Hcomm : forall (m : gmap string nat) (j1 j2 : string)
            (z1 z2 y : nat),
            j1 <> j2 -> m !! j1 = Some z1 -> m !! j2 = Some z2 ->
            z1 + (z2 + y) = z2 + (z1 + y)) by (intros; lia).
  destruct (groups !! key c) as [v|] eqn:E; simpl.
  - rewrite <- (insert_delete_eq groups).
    rewrite <- (insert_delete_id groups (key c) v E) at 2.
    rewrite !map_fold_insert_L;
      [lia|apply Hcomm|apply lookup_delete_eq
       |apply Hcomm|apply lookup_delete_eq].
  - rewrite map_fold_insert_L; [lia|apply Hcomm|done].
Qed.

Lemma total_fold key changes (groups : gmap string nat) :
  total (fold_left (group_step key) changes groups)
  = total groups + length changes.
Proof.
  revert groups. induction changes as [|c changes IH]; intros groups; simpl.
  - lia.
  - rewrite IH, total_group_step. lia.
Qed.

(** X17. [_group_changes_by_source] and [_group_changes_by_type] hold a
    key exactly for the source names, respectively change types, that
    occur, each with the number of changes that carry it, and the counts
    of either dictionary add up to the number of changes. *)
Theorem group_changes_counts changes k :
  _group_changes_by_source changes !! k
  = (if Nat.eqb (count_by source_name k changes) 0 then None
     else Some (count_by source_name k changes))
  /\ _group_changes_by_type changes !! k
     = (if Nat.eqb (count_by change_type k changes) 0 then None
        else Some (count_by change_type k changes))
  /\ total (_group_changes_by_source changes) = length changes
  /\ total (_group_changes_by_type changes) = length changes.
Proof.
  unfold _group_changes_by_source, _group_changes_by_type.
  rewrite !group_fold_lookup, !total_fold, !lookup_empty. simpl.
  repeat split; unfold total; by rewrite map_fold_empty.
Qed.

(** X18. Whatever the configuration and the environment, the change types
    counted for the result of a run are "added" and "modified" only. *)
Theorem run_change_types env d changes d' k :
  detect_all_changes env d = Ok (changes, d') ->
  k <> "added" -> k <> "modified" ->
  _group_changes_by_type changes !! k = None.
Proof.
  intros H Ha Hm.
  assert (Hall : Forall (fun c => change_type c = "added"
                                  \/ change_type c = "modified") changes).
  { revert H. apply detect_all_changes_Forall.
    - intros. by right.
    - intros. simpl. destruct known; auto. }
  unfold _group_changes_by_type. rewrite group_fold_lookup, lookup_empty.
  assert (Hc : count_by change_type k changes = 0).
  { unfold count_by. clear H.
    induction Hall as [|c l Hc _ IH]; simpl; [done|].
    destruct (String.eqb (change_type c) k) eqn:E; [|done].
    apply String.eqb_eq in E. destruct Hc; congruence. }
  by rewrite Hc.
Qed.

Lemma run_change_types_witness :
  let env := Scenario.project_env "hello" in
  exists changes d',
    detect_all_changes env
      (Scenario.detector default_data_sources empty_state)
    = Ok (changes, d')
    /\ _group_changes_by_type changes !! "modified" = Some 1
    /\ _group_changes_by_type changes !! "added" = Some 2
    /\ _group_changes_by_type changes !! "deleted" = None.
Proof.
  intros env.
  destruct (detect_all_changes_spec env
              (Scenario.detector default_data_sources empty_state))
    as (d' & H & _).
  eexists _, d'. split; [exact H|].
  split; [vm_compute; reflexivity|]. split; [vm_compute; reflexivity|].
  apply (run_change_types env _ _ d' "deleted" H); discriminate.
Defined.

(** ** What detection keeps in memory *)

Lemma file_step_snd env source stored acc p :
  snd (file_step env source stored acc p) = checksum_step env (snd acc) p.
Proof.
  unfold file_step, checksum_step.
  destruct (is_file env p); [|done].
  destruct (read_text env p) as [text|e]; [|done].
  by destruct (new_or_modified stored p (md5_hex text)).
Qed.

Lemma fold_file_step_snd env source stored paths acc :
  snd (fold_left (file_step env source stored) paths acc) =
  fold_left (checksum_step env) paths (snd acc).
Proof.
  revert acc. induction paths as [|p paths IH]; intros acc; simpl; [done|].
  by rewrite IH, file_step_snd.
Qed.

(** X19. The only thing [_detect_file_changes] changes in the run state is
    the entry ["file_checksums_" + source.name]: it is merged with the
    checksums of all readable files the source enumerates, changed or not,
    which are the checksums that [_calculate_current_file_checksums]
    computes for that source alone. The stored [file_checksums] and
    [git_commit_hashes], which classification and saving read, stay as
    they were. *)
Theorem detection_checksums_in_memory env st source changes st' :
  type source = "local_files" ->
  _detect_file_changes env st source = Ok (changes, st') ->
  exists m,
    _calculate_current_file_checksums env [source] = Ok m
    /\ source_checksums st' !! source_key source
       = Some (m ∪ default ∅ (source_checksums st !! source_key source))
    /\ (forall k, k <> source_key source ->
          source_checksums st' !! k = source_checksums st !! k)
    /\ file_checksums st' = file_checksums st
    /\ git_commit_hashes st' = git_commit_hashes st
    /\ processed_changes st' = processed_changes st
    /\ last_run_timestamp st' = last_run_timestamp st.
Proof.
  intros Ht. unfold _detect_file_changes, _calculate_current_file_checksums.
  simpl. rewrite Ht. simpl.
  rewrite file_patterns_loop_glob_all, checksum_patterns_loop_glob_all.
  destruct (glob_all env _) as [paths|e]; simpl; [|done].
  pose proof (fold_file_step_snd env source (default ∅ (file_checksums st))
                paths ([], ∅)) as Hsnd.
  destruct (fold_left (file_step _ _ _) paths _) as [c cur]. simpl in *.
  subst cur. intros [= <- <-]. eexists. split; [done|].
  unfold update_source_checksums. simpl.
  split; [by rewrite lookup_insert_eq|].
  split; [|done]. intros k Hk. by rewrite lookup_insert_ne.
Qed.

(** The documentation source over an unchanged [README.md]: nothing is
    reported, and the checksum of the file is kept in memory. *)
Lemma detection_checksums_in_memory_witness :
  let env := Scenario.readme_env "hello" in
  let docs := Scenario.local_files "Documentation Files" ["README.md"] in
  exists st' m,
    _detect_file_changes env Scenario.readme_state docs = Ok ([], st')
    /\ _calculate_current_file_checksums env [docs] = Ok m
    /\ m !! "README.md" = Some "5d41402abc4b2a76b9719d911017c592"
    /\ source_checksums st' !! "file_checksums_Documentation Files"
       = Some (m ∪ ∅)
    /\ file_checksums st' = file_checksums Scenario.readme_state.
Proof.
  intros env docs.
  destruct (_detect_file_changes env Scenario.readme_state docs)
    as [[c st']|e] eqn:E; [|vm_compute in E; discriminate E].
  assert (Hc : c = []).
  { pose proof (detect_file_changes_reconcile env Scenario.readme_state docs)
      as H. rewrite E in H. simpl in H. vm_compute in H.
    by injection H as ->. }
  subst c.
  destruct (detection_checksums_in_memory env Scenario.readme_state docs []
              st' eq_refl E) as (m & Hm & Hk & _ & Hf & _).
  exists st', m. split; [reflexivity|]. split; [exact Hm|].
  split; [|split; [exact Hk|exact Hf]].
  vm_compute in Hm. injection Hm as <-. vm_compute. reflexivity.
Defined.
